(** * filesizehistogram.py: a shallow embedding and its properties

    The script reads one file size per line, derives logarithmic bin
    edges from the largest size, counts the sizes per bin with
    [np.histogram], locates mean and median with [bisect_left] and labels
    the chart with [numfmt].  The embedding follows the script statement by
    statement; the Python builtins and the NumPy and bisect routines it
    calls are modelled next to it, each after its documented behaviour.

    Integers are [Z]; a Python [float] is an IEEE 754 binary64 value,
    represented by [spec_float] at precision 53 and maximal exponent 1024;
    strings are [string]s of bytes. *)

From Stdlib Require Import ZArith List String Ascii Bool Lia.
From Stdlib Require Import DecimalString DecimalZ Permutation.
From Stdlib Require Import Floats.SpecFloat.
From Equations Require Import Equations.
Import ListNotations.

Local Open Scope string_scope.
Local Open Scope Z_scope.

(** The usual device to keep the value of a loop test as an equation. *)
Definition inspect {A} (a : A) : {b : A | a = b} := exist _ a eq_refl.

(* ===================================================================== *)
(** ** Python values *)
(* ===================================================================== *)

Module Py.

(** *** Exceptions the script can raise, named after the raising call. *)
Inductive exn :=
| OSError (path : string)            (* open(filename) *)
| ValueError_int (literal : string)  (* int(): invalid literal *)
| ValueError_max_empty               (* data.max() of a zero-size array *)
| ValueError_math_domain             (* log2 of a non-positive number *)
| ValueError_bins.                   (* np.histogram: bins not monotonic *)

Inductive result (A : Type) :=
| Ok (a : A)
| Raise (e : exn).
Arguments Ok {A} a.
Arguments Raise {A} e.

Definition bind {A B} (r : result A) (k : A -> result B) : result B :=
  match r with
  | Ok a => k a
  | Raise e => Raise e
  end.

(** A list comprehension [[f x for x in l]]: evaluated left to right,
    the first exception aborts it. *)
Fixpoint comprehension {A B} (f : A -> result B) (l : list A) : result (list B) :=
  match l with
  | [] => Ok []
  | x :: l' =>
      bind (f x) (fun y => bind (comprehension f l') (fun ys => Ok (y :: ys)))
  end.

(** *** Floats: IEEE 754 binary64 *)
Definition prec : Z := 53.
Definition emax : Z := 1024.
Definition float := spec_float.

(** [float(n)] for an integer: rounded to nearest, ties to even. *)
Definition float_of_int (n : Z) : float := binary_normalize prec emax n 0 false.
Definition fadd : float -> float -> float := SFadd prec emax.
Definition fdiv : float -> float -> float := SFdiv prec emax.

Definition is_finite (x : float) : bool :=
  match x with
  | S754_zero _ | S754_finite _ _ _ => true
  | _ => false
  end.

(** Comparison of a float with an integer is exact in Python: the two
    are compared as the real numbers they denote; a NaN compares as
    unordered. *)
Definition compare_float_int (x : float) (n : Z) : option comparison :=
  match x with
  | S754_nan => None
  | S754_infinity s => Some (if s then Lt else Gt)
  | S754_zero _ => Some (0 ?= n)
  | S754_finite s m e =>
      let v := if s then Zneg m else Zpos m in
      match e with
      | Zneg k => Some (v ?= n * 2 ^ Zpos k)
      | _ => Some (v * 2 ^ e ?= n)
      end
  end.

(** [x >= n] *)
Definition float_ge_int (x : float) (n : Z) : bool :=
  match compare_float_int x n with
  | Some Gt | Some Eq => true
  | _ => false
  end.

(** [n < x] *)
Definition int_lt_float (n : Z) (x : float) : bool :=
  match compare_float_int x n with
  | Some Gt => true
  | _ => false
  end.

(** A number as [numfmt] tells them apart with [type(s) is float]. *)
Inductive num :=
| PyInt (n : Z)
| PyFloat (x : float).

(** *** Strings *)

(** [str(n)] for an integer. *)
Definition str (n : Z) : string := NilZero.string_of_int (Z.to_int n).

(** [s * n]: repetition. *)
Fixpoint repeat_str (s : string) (n : nat) : string :=
  match n with
  | O => ""
  | S n' => s ++ repeat_str s n'
  end.

(** [s[start:stop]], with Python's treatment of negative and
    out-of-range indices. *)
Definition slice_index (len i : Z) : Z :=
  if i <? 0 then Z.max 0 (i + len) else Z.min i len.

Definition slice (s : string) (start stop : Z) : string :=
  let len := Z.of_nat (String.length s) in
  let a := slice_index len start in
  let b := slice_index len stop in
  substring (Z.to_nat a) (Z.to_nat (b - a)) s.

(** [x.split(sep)] for a one-character separator: every occurrence
    splits, empty pieces are kept, the result is never empty. *)
Fixpoint split (sep : ascii) (x : string) : list string :=
  match x with
  | EmptyString => [EmptyString]
  | String c rest =>
      if Ascii.eqb c sep then EmptyString :: split sep rest
      else match split sep rest with
           | h :: t => String c h :: t
           | [] => [String c EmptyString]
           end
  end.

(** The lines a text file yields when it is iterated: a line ends with
    its newline, the last one maybe without; a carriage return, alone or
    before a newline, is read as a newline. *)
Definition newline : ascii := ascii_of_nat 10.
Definition carriage_return : ascii := ascii_of_nat 13.

Fixpoint universal_newlines (text : string) : string :=
  match text with
  | EmptyString => EmptyString
  | String c rest =>
      if Ascii.eqb c carriage_return then
        match rest with
        | String c' rest' =>
            if Ascii.eqb c' newline
            then String newline (universal_newlines rest')
            else String newline (universal_newlines rest)
        | EmptyString => String newline EmptyString
        end
      else String c (universal_newlines rest)
  end.

Fixpoint split_lines (text : string) : list string :=
  match text with
  | EmptyString => []
  | String c rest =>
      if Ascii.eqb c newline then String c EmptyString :: split_lines rest
      else match split_lines rest with
           | [] => [String c EmptyString]
           | l :: ls => String c l :: ls
           end
  end.

Definition readlines (text : string) : list string :=
  split_lines (universal_newlines text).

(** Right-justification in a field, as the format spec [:5] does for
    an integer. *)
Definition rjust (width : nat) (s : string) : string :=
  repeat_str " " (width - String.length s) ++ s.

(** *** [int(s)] for a string, base 10.

    Leading and trailing whitespace is dropped, a sign may follow, then
    decimal digits with single underscores between them; anything else
    is a [ValueError].  The characters are bytes: digits and whitespace
    outside ASCII, which Python also accepts, are not covered, nor is
    the interpreter's optional limit on the number of digits. *)
Definition is_space (c : ascii) : bool :=
  let n := nat_of_ascii c in
  ((9 <=? n) && (n <=? 13) || (n =? 32))%nat.

Definition digit_value (c : ascii) : option Z :=
  let n := nat_of_ascii c in
  if ((48 <=? n) && (n <=? 57))%nat then Some (Z.of_nat n - 48) else None.

Definition underscore : ascii := "_"%char.

Fixpoint lstrip (s : string) : string :=
  match s with
  | String c r => if is_space c then lstrip r else s
  | EmptyString => EmptyString
  end.

(** What ends a run of digits: it must not be empty and must not end in
    an underscore. *)
Definition digits_end (prev : option ascii) (acc : Z) (rest : string)
  : option (Z * string) :=
  match prev with
  | None => None
  | Some p => if Ascii.eqb p underscore then None else Some (acc, rest)
  end.

Fixpoint scan_digits (prev : option ascii) (acc : Z) (s : string)
  : option (Z * string) :=
  match s with
  | String c r =>
      if Ascii.eqb c underscore then
        match prev with
        | None => None
        | Some p => if Ascii.eqb p underscore then None
                    else scan_digits (Some c) acc r
        end
      else
        match digit_value c with
        | Some d => scan_digits (Some c) (10 * acc + d) r
        | None => digits_end prev acc s
        end
  | EmptyString => digits_end prev acc s
  end.

Definition int_of_str (s : string) : result Z :=
  let body := lstrip s in
  let '(negative, body) :=
    match body with
    | String "-" r => (true, r)
    | String "+" r => (false, r)
    | _ => (false, body)
    end in
  match scan_digits None 0 body with
  | Some (v, rest) =>
      match lstrip rest with
      | EmptyString => Ok (if negative then - v else v)
      | _ => Raise (ValueError_int s)
      end
  | None => Raise (ValueError_int s)
  end.

(** *** The format spec [.2f]

    Python prints the decimal that is nearest to the exact binary value,
    ties to even. *)
Definition round_half_even (num den : Z) : Z :=
  let q := num / den in
  let r := num mod den in
  match 2 * r ?= den with
  | Lt => q
  | Gt => q + 1
  | Eq => if Z.even q then q else q + 1
  end.

Definition sign_str (s : bool) : string := if s then "-" else "".

Definition two_digits (n : Z) : string := str (n / 10) ++ str (n mod 10).

(** The value times 100, rounded to an integer. *)
Definition hundredths (m : positive) (e : Z) : Z :=
  match e with
  | Zneg k => round_half_even (Zpos m * 100) (2 ^ Zpos k)
  | _ => Zpos m * 100 * 2 ^ e
  end.

Definition format_2f (x : float) : string :=
  match x with
  | S754_nan => "nan"
  | S754_infinity s => sign_str s ++ "inf"
  | S754_zero s => sign_str s ++ "0.00"
  | S754_finite s m e =>
      let c := hundredths m e in
      sign_str s ++ str (c / 100) ++ "." ++ two_digits (c mod 100)
  end.

(** [range(a, b)] *)
Definition range (a b : Z) : list Z :=
  map (fun i => a + Z.of_nat i) (seq 0 (Z.to_nat (b - a))).

(** [ceil(log2(x))] for a positive integer [x], [ValueError] otherwise.
    The script only uses [min(ceil(log2(x)), 31)]: up to 2^31 the integer
    is converted to a float exactly, and the logarithm of a power of two
    is exact while that of its integer neighbours is off by more than
    2^-32, far above the rounding error; beyond 2^31 every value has
    logarithm above 31 and the minimum is 31. *)
Definition ceil_log2 (x : Z) : result Z :=
  if x <=? 0 then Raise ValueError_math_domain else Ok (Z.log2_up x).

End Py.

Import Py.

Notation "x <- c1 ;; c2" := (bind c1 (fun x => c2))
  (at level 61, c1 at next level, right associativity).

(* ===================================================================== *)
(** ** The formatter *)
(* ===================================================================== *)

(** The loop of [numfmt]:
    [while s >= 1024 and m < len(marks): s = div(s); m += 1].
    It is the same loop for both kinds of number; [ge1024] and [div] are
    the test and the division for the kind at hand.  It returns the final
    [s] and [m]. *)
Equations? numfmt_while {A : Type} (ge1024 : A -> bool) (div : A -> A)
    (marks : string) (s : A) (m : nat) : A * nat
    by wf (String.length marks - m)%nat lt :=
  numfmt_while ge1024 div marks s m
    with inspect (ge1024 s && (m <? String.length marks)%nat) := {
    | exist _ true _ => numfmt_while ge1024 div marks (div s) (S m)
    | exist _ false _ => (s, m) }.
Proof.
  apply andb_prop in e as [_ e]. apply Nat.ltb_lt in e. lia.
Qed.

Definition marks : string := "KMGTP".

Definition numfmt (s : num) : string :=
  match s with
  | PyFloat x =>
      let '(x', m) :=
        numfmt_while (fun s => float_ge_int s 1024)
                     (fun s => fdiv s (float_of_int 1024)) marks x 0 in
      format_2f x' ++ slice marks (Z.of_nat m - 1) (Z.of_nat m)
  | PyInt n =>
      let '(n', m) :=
        numfmt_while (fun s => 1024 <=? s) (fun s => s / 1024) marks n 0 in
      str n' ++ slice marks (Z.of_nat m - 1) (Z.of_nat m)
  end.

(* ===================================================================== *)
(** ** NumPy *)
(* ===================================================================== *)

Module Np.

(** An integer array is a list of its elements; the script only builds
    arrays of file sizes, which fit the 64-bit element type. *)

Fixpoint insert (x : Z) (l : list Z) : list Z :=
  match l with
  | [] => [x]
  | y :: l' => if x <=? y then x :: l else y :: insert x l'
  end.

(** [np.sort]: the array in ascending order. *)
Fixpoint sort (l : list Z) : list Z :=
  match l with
  | [] => []
  | x :: l' => insert x (sort l')
  end.

(** [a.max()]: a zero-size array has no maximum. *)
Definition max (a : list Z) : result Z :=
  match a with
  | [] => Raise ValueError_max_empty
  | x :: a' => Ok (fold_left Z.max a' x)
  end.

(** [a.sum()] of a 64-bit integer array: the sum wraps around. *)
Definition wrap64 (z : Z) : Z := (z + 2 ^ 63) mod 2 ^ 64 - 2 ^ 63.
Definition sum (a : list Z) : Z := wrap64 (fold_left Z.add a 0).

(** [a.mean()] of an integer array: the elements are added as floats
    and the sum is divided by the count.  The additions are taken from
    left to right; NumPy adds long arrays in blocks, which gives the same
    float whenever no addition rounds, as for sizes that total less
    than 2^53. *)
Definition mean (a : list Z) : float :=
  fdiv (fold_left fadd (map float_of_int a) (S754_zero false))
       (float_of_int (Z.of_nat (List.length a))).

(** [np.median(a)]: the mean of the middle element, or of the two middle
    elements, of the array in order. *)
Definition median (a : list Z) : float :=
  let part := sort a in
  let sz := List.length a in
  let index := (sz / 2)%nat in
  if Nat.odd sz then mean (firstn 1 (skipn index part))
  else mean (firstn 2 (skipn (index - 1) part)).

(** [a.searchsorted(v, side)] on an array in ascending order: the
    first position where [v] can be inserted keeping the order
    ([left]: before equal elements, [right]: after them). *)
Fixpoint searchsorted_left (a : list Z) (v : Z) : nat :=
  match a with
  | [] => O
  | x :: a' => if x <? v then S (searchsorted_left a' v) else O
  end.

Fixpoint searchsorted_right (a : list Z) (v : Z) : nat :=
  match a with
  | [] => O
  | x :: a' => if x <=? v then S (searchsorted_right a' v) else O
  end.

(** [_search_sorted_inclusive(a, v)]: [left] for all of [v] but its last
    item, [right] for the last, which makes the last bin edge
    inclusive. *)
Definition search_sorted_inclusive (a v : list Z) : list Z :=
  (map (fun e => Z.of_nat (searchsorted_left a e)) (removelast v)
   ++ map (fun e => Z.of_nat (searchsorted_right a e))
          (skipn (List.length v - 1) v))%list.

(** [np.diff] *)
Fixpoint diff (l : list Z) : list Z :=
  match l with
  | x :: (y :: _) as l' => (y - x) :: diff l'
  | _ => []
  end.

(** [not np.any(bins[:-1] > bins[1:])] *)
Fixpoint monotonic (bins : list Z) : bool :=
  match bins with
  | x :: (y :: _) as bins' => (x <=? y) && monotonic bins'
  | _ => true
  end.

(** [np.histogram(a, bins)] for a sequence of bin edges, which must not
    decrease: the counts are the differences of the cumulative counts at
    the edges, taken on the sorted data.  (NumPy sorts and counts block by
    block and adds the cumulative counts up, which gives the same
    numbers.)  It returns the counts and the edges. *)
Definition histogram (a bins : list Z) : result (list Z * list Z) :=
  if monotonic bins then
    let sa := sort a in
    let cum_n := search_sorted_inclusive sa bins in
    Ok (diff cum_n, bins)
  else Raise ValueError_bins.

End Np.

(* ===================================================================== *)
(** ** bisect *)
(* ===================================================================== *)

Module Bisect.

(** [bisect_left(a, x)]: the loop
    [while lo < hi: mid = (lo + hi) // 2;
       if a[mid] < x: lo = mid + 1 else: hi = mid]
    and its result [lo].  [less] is the [<] of the elements of [a] with
    [x], whatever the type of [x]. *)
Equations? bisect_loop {A : Type} (less : Z -> A -> bool) (a : list Z)
    (x : A) (lo hi : nat) : nat by wf (hi - lo)%nat lt :=
  bisect_loop less a x lo hi with inspect (lo <? hi)%nat := {
    | exist _ true _ with inspect (less (nth ((lo + hi) / 2) a 0) x) := {
        | exist _ true _ => bisect_loop less a x ((lo + hi) / 2 + 1) hi
        | exist _ false _ => bisect_loop less a x lo ((lo + hi) / 2) }
    | exist _ false _ => lo }.
Proof.
  all: match goal with H : (_ <? _)%nat = true |- _ => apply Nat.ltb_lt in H end.
  all: change (fst (Nat.divmod (lo + hi) 1 0 1)) with ((lo + hi) / 2)%nat in *.
  all: pose proof (Nat.div_mod_eq (lo + hi) 2).
  all: pose proof (Nat.mod_upper_bound (lo + hi) 2 (Nat.neq_succ_0 1)).
  all: lia.
Qed.

Definition bisect_left {A : Type} (less : Z -> A -> bool) (a : list Z)
    (x : A) : nat :=
  bisect_loop less a x 0 (List.length a).

End Bisect.

(* ===================================================================== *)
(** ** The script *)
(* ===================================================================== *)

(** What the script computes before it draws. *)
Record analysis := {
  data : list Z;
  maxdatalog2 : Z;
  bins : list Z;
  median : float;
  mean : float;
  bmedian : Z;
  bmean : Z;
  files : Z;
  total : Z;
  hist : list Z;
  bin_edges : list Z
}.

Definition mindatalog2 : Z := 5. (* cut from 32 *)

(** [[int(x.split(' ')[0]) for x in open(filename)]], on the lines the
    file object yields. *)
Definition load (lines : list string) : result (list Z) :=
  comprehension (fun x => int_of_str (nth 0 (split " " x) "")) lines.

(** The edges for a given largest size. *)
Definition edges (largest : Z) : result (Z * list Z) :=
  l <- ceil_log2 largest ;;
  let maxdatalog2 := Z.min l 31 in (* cut at 1G and above *)
  Ok (maxdatalog2,
      ([0; 1] ++ map (fun x => 2 ^ x) (range mindatalog2 (maxdatalog2 + 1)))%list).

Definition analyse (lines : list string) : result analysis :=
  data <- load lines ;;
  largest <- Np.max data ;;
  mb <- edges largest ;;
  let '(maxdatalog2, bins) := mb in
  let median := Np.median data in
  let mean := Np.mean data in
  let bmedian := Z.of_nat (Bisect.bisect_left int_lt_float bins median) - 1 in
  let bmean := Z.of_nat (Bisect.bisect_left int_lt_float bins mean) - 1 in
  let files := Z.of_nat (List.length data) in
  let total := Np.sum data in
  hb <- Np.histogram data bins ;;
  let '(hist, bin_edges) := hb in
  Ok {| data := data; maxdatalog2 := maxdatalog2; bins := bins;
        median := median; mean := mean; bmedian := bmedian; bmean := bmean;
        files := files; total := total; hist := hist;
        bin_edges := bin_edges |}.

(** The chart: what is handed to matplotlib, without the geometry. *)
Record chart := {
  bar_heights : list Z;
  xticks : list Z;
  xticklabels : list string;
  axvline_mean : Z;
  axvline_median : Z;
  text_mean : string;
  text_median : string;
  text_files : string;
  text_total : string;
  bar_texts : list string
}.

(** The separator of the tick labels, U+250A followed by a newline. *)
Definition separator : string :=
  String (ascii_of_nat 226) (String (ascii_of_nat 148)
    (String (ascii_of_nat 138) (String (ascii_of_nat 10) ""))).

(** The labels: ["lo~hi"] for every bar but the last, ["lo~"] for the
    last.  The indices are within [bins], which has one more item than
    [hist]. *)
Definition ticklabels (bins hist : list Z) : list string :=
  let n := Z.of_nat (List.length hist) in
  (map (fun i =>
          repeat_str separator (Z.to_nat (i mod 3))
          ++ numfmt (PyInt (nth (Z.to_nat i) bins 0)) ++ "~"
          ++ numfmt (PyInt (nth (Z.to_nat (i + 1)) bins 0)))%string
       (range 0 (n - 1))
   ++ [(numfmt (PyInt (nth (Z.to_nat (n - 1)) bins 0)) ++ "~")%string])%list.

Definition render (a : analysis) : chart :=
  {| bar_heights := hist a;
     xticks := range 0 (Z.of_nat (List.length (hist a)));
     xticklabels := ticklabels (bins a) (hist a);
     axvline_mean := bmean a;
     axvline_median := bmedian a;
     text_mean := "Mean: " ++ numfmt (PyFloat (mean a));
     text_median := "Median: " ++ numfmt (PyFloat (median a));
     text_files := "Files: " ++ str (files a);
     text_total := "Total: " ++ numfmt (PyFloat (float_of_int (total a)));
     bar_texts := map (fun h => rjust 5 (str h)) (hist a) |}.

(** How a run ends. *)
Inductive outcome :=
| Exited (stdout : list string) (status : Z)  (* sys.exit after printing *)
| Raised (e : exn)                            (* uncaught exception *)
| Shown (c : chart).                          (* plt.show() *)

Definition dquote : string := String (ascii_of_nat 34) "".
Definition squote : string := String (ascii_of_nat 39) "".

(** The lines printed when no input is named, one per [print]. *)
Definition usage : list string :=
  [ "Usage: filesizehistogram.py input";
    "       can use " ++ dquote ++ "-" ++ dquote
      ++ " as input filename, indicate input is taken from stdin.";
    "       otherwise input file should be a result of " ++ dquote
      ++ "find -printf " ++ squote ++ "%s %p" ++ squote ++ dquote ]%string.

(** The script; [open] gives the text of a file, or nothing when the
    file cannot be opened (a text that cannot be decoded is not
    modelled). *)
Definition main (argv : list string) (open : string -> option string)
  : outcome :=
  if (List.length argv <? 2)%nat then Exited usage 1
  else
    let filename := nth 1 argv "" in
    let filename := if String.eqb filename "-" then "/dev/stdin" else filename in
    match open filename with
    | None => Raised (OSError filename)
    | Some text =>
        match analyse (readlines text) with
        | Ok a => Shown (render a)
        | Raise e => Raised e
        end
    end.

(* ===================================================================== *)
(** ** Vocabulary of the properties *)
(* ===================================================================== *)

Definition is_digit (c : ascii) : bool :=
  match digit_value c with
  | Some _ => true
  | None => false
  end.

(** A number printed without decimal places: digits, maybe after a
    sign; in particular no decimal point. *)
Definition no_decimals (s : string) : bool :=
  forallb (fun c => is_digit c || Ascii.eqb c "-") (list_ascii_of_string s).

(** A number printed with exactly two decimal places. *)
Definition two_decimals (s : string) : Prop :=
  exists (whole : string) (c1 c2 : ascii),
    s = (whole ++ "." ++ String c1 (String c2 ""))%string
    /\ no_decimals whole = true
    /\ is_digit c1 = true /\ is_digit c2 = true.

(** The float [x] is finite and stands for the fraction [num / den]
    exactly ([den] positive). *)
Definition denotes (x : float) (num den : Z) : bool :=
  match x with
  | S754_zero _ => num =? 0
  | S754_finite s m e =>
      let v := if s then Zneg m else Zpos m in
      match e with
      | Zneg k => v * den =? num * 2 ^ Zpos k
      | _ => v * 2 ^ e * den =? num
      end
  | _ => false
  end.

(** [sum(hist)] *)
Definition total_count (counts : list Z) : Z := fold_right Z.add 0 counts.

(** How many samples satisfy [p]. *)
Definition count (p : Z -> bool) (samples : list Z) : Z :=
  Z.of_nat (List.length (filter p samples)).

(** The counts per bin as NumPy documents them: a bin holds the samples
    from its left edge up to, but not including, its right edge; the last
    bin includes its right edge as well. *)
Fixpoint bin_counts (samples edges : list Z) : list Z :=
  match edges with
  | lo :: (hi :: rest) as edges' =>
      match rest with
      | [] => [count (fun x => (lo <=? x) && (x <=? hi)) samples]
      | _ => count (fun x => (lo <=? x) && (x <? hi)) samples
             :: bin_counts samples edges'
      end
  | _ => []
  end.

(** An array in ascending order. *)
Inductive ascending : list Z -> Prop :=
| ascending_nil : ascending []
| ascending_cons (x : Z) (l : list Z) :
    (forall y, In y l -> x <= y) -> ascending l -> ascending (x :: l).

(** Edges that grow strictly. *)
Fixpoint strictly_increasing (edges : list Z) : bool :=
  match edges with
  | x :: (y :: _) as edges' => (x <? y) && strictly_increasing edges'
  | _ => true
  end.

(** The samples between the first and the last edge, both included. *)
Definition within_edges (samples edges : list Z) : Z :=
  count (fun x => (hd 0 edges <=? x) && (x <=? last edges 0)) samples.

(** The text of a line before its first space: [x.split(' ')[0]]. *)
Fixpoint before_space (x : string) : string :=
  match x with
  | EmptyString => EmptyString
  | String c rest => if Ascii.eqb c " " then EmptyString
                     else String c (before_space rest)
  end.

(** The number a run of decimal digits stands for. *)
Definition decimal_value (tok : string) : Z :=
  fold_left (fun acc c => 10 * acc + (Z.of_nat (nat_of_ascii c) - 48))
            (list_ascii_of_string tok) 0.

Definition all_digits (tok : string) : bool :=
  forallb is_digit (list_ascii_of_string tok).

(** The reading of a line in the words of the specification: its first
    whitespace-separated token, which is to be a non-negative decimal
    integer. *)
Fixpoint until_space (s : string) : string :=
  match s with
  | EmptyString => EmptyString
  | String c r => if is_space c then EmptyString else String c (until_space r)
  end.

Definition spec_first_token (line : string) : string :=
  until_space (lstrip line).

Definition spec_nonneg_integer (tok : string) : option Z :=
  match tok with
  | EmptyString => None
  | _ => if all_digits tok then Some (decimal_value tok) else None
  end.

(** The exceptions that come out of the statistics ([max], [mean],
    [median]) rather than out of reading the input. *)
Definition raised_by_statistics (e : exn) : bool :=
  match e with
  | ValueError_max_empty => true
  | _ => false
  end.

(** A text without line ends in it. *)
Definition plain (s : string) : bool :=
  forallb (fun c => negb (Ascii.eqb c newline || Ascii.eqb c carriage_return))
          (list_ascii_of_string s).

(** The text of a listing as [find -printf '%s %p\n'] writes it: for
    every file its size, a space, its name and a newline. *)
Definition listing (entries : list (Z * string)) : string :=
  concat "" (map (fun entry =>
                    str (fst entry) ++ " " ++ snd entry
                    ++ String newline "")%string entries).

(** A tab character. *)
Definition tab : string := String (ascii_of_nat 9) "".

(** The input of the end-to-end scenario. *)
Definition scenario : list string := ["0 a"; "10 b"; "2000 c"; "3000000 d"].

(** The argument vector of a run on the file [path]. *)
Definition argv_for (path : string) : list string :=
  ["filesizehistogram.py"; path].

(** The same input as the text of a file. *)
Definition scenario_text : string :=
  concat "" (map (fun line => line ++ String newline "")%string scenario).

(** A file system that holds one file. *)
Definition single_file (path : string) (text : string)
  : string -> option string :=
  fun p => if String.eqb p path then Some text else None.

Lemma numfmt_while_step {A : Type} (ge1024 : A -> bool) (div : A -> A)
    (mk : string) (s : A) (m : nat) :
  numfmt_while ge1024 div mk s m =
  if ge1024 s && (m <? String.length mk)%nat
  then numfmt_while ge1024 div mk (div s) (S m)
  else (s, m).
Proof.
  match goal with |- _ = ?r => set (rhs := r) end.
  rewrite numfmt_while_equation_1.
  destruct (inspect (ge1024 s && (m <? String.length mk)%nat)) as [[] E].
  - rewrite numfmt_while_clause_1_equation_1. subst rhs. rewrite E. reflexivity.
  - rewrite numfmt_while_clause_1_equation_2. subst rhs. rewrite E. reflexivity.
Qed.

Lemma bisect_loop_step {A : Type} (less : Z -> A -> bool) (a : list Z)
    (x : A) (lo hi : nat) :
  Bisect.bisect_loop less a x lo hi =
  if (lo <? hi)%nat then
    if less (nth ((lo + hi) / 2) a 0) x
    then Bisect.bisect_loop less a x ((lo + hi) / 2 + 1) hi
    else Bisect.bisect_loop less a x lo ((lo + hi) / 2)
  else lo.
Proof.
  match goal with |- _ = ?r => set (rhs := r) end.
  rewrite Bisect.bisect_loop_equation_1.
  destruct (inspect (lo <? hi)%nat) as [[] E].
  - rewrite Bisect.bisect_loop_clause_1_equation_1.
    destruct (inspect (less (nth ((lo + hi) / 2) a 0) x)) as [[] E'].
    + rewrite Bisect.bisect_loop_clause_1_clause_1_equation_1.
      subst rhs. rewrite E, E'. reflexivity.
    + rewrite Bisect.bisect_loop_clause_1_clause_1_equation_2.
      subst rhs. rewrite E, E'. reflexivity.
  - rewrite Bisect.bisect_loop_clause_1_equation_2.
    subst rhs. rewrite E. reflexivity.
Qed.

(* ===================================================================== *)
(** ** Properties of the formatter *)
(* ===================================================================== *)

(** The loop divides as long as the value is at least 1024 and a mark is
    left: it stops after [k] divisions, every value before the last was
    at least 1024, and either the last is below 1024 or the marks are
    used up. *)
Lemma numfmt_while_iter {A : Type} (ge1024 : A -> bool) (div : A -> A)
    (mk : string) :
  forall (d : nat) (s : A) (m : nat),
    (String.length mk - m)%nat = d ->
    exists k : nat,
      numfmt_while ge1024 div mk s m = (Nat.iter k div s, (m + k)%nat)
      /\ (forall j, (j < k)%nat -> ge1024 (Nat.iter j div s) = true)
      /\ (k <= String.length mk - m)%nat
      /\ (ge1024 (Nat.iter k div s) = false
          \/ (String.length mk <= m + k)%nat).
Proof.
  induction d as [|d IH]; intros s m Hd; rewrite numfmt_while_step.
  - assert (Hm : (m <? String.length mk)%nat = false)
      by (apply Nat.ltb_ge; lia).
    rewrite Hm, andb_false_r. exists 0%nat. rewrite Nat.add_0_r.
    repeat split; lia.
  - assert (Hm : (m <? String.length mk)%nat = true)
      by (apply Nat.ltb_lt; lia).
    rewrite Hm, andb_true_r. destruct (ge1024 s) eqn:Hs.
    + destruct (IH (div s) (S m)) as (k & Hk & Hall & Hle & Hend); [lia|].
      exists (S k). rewrite Nat.iter_succ_r, Hk.
      split; [f_equal; lia|]. split; [|split; [lia|]].
      * intros [|j] Hj; [exact Hs|].
        rewrite Nat.iter_succ_r. apply Hall. lia.
      * destruct Hend as [Hend|Hend]; [left; exact Hend|right; lia].
    + exists 0%nat. rewrite Nat.add_0_r.
      split; [reflexivity|]. split; [intros j Hj; lia|]. split; [lia|].
      left. exact Hs.
Qed.

(** The mark appended after [m] divisions. *)
Lemma marks_slice (m : nat) :
  (m <= 5)%nat ->
  In (slice marks (Z.of_nat m - 1) (Z.of_nat m)) [""; "K"; "M"; "G"; "T"; "P"].
Proof.
  intros H.
  destruct m as [|[|[|[|[|[|m]]]]]]; try lia; vm_compute; tauto.
Qed.

(** Dividing a value of at least 1024 by 1024 rounds towards zero
    whichever of Python's [//] (floor) and truncation is meant. *)
Lemma floor_is_trunc (k : nat) (n : Z) :
  (forall j, (j < k)%nat -> (1024 <=? Nat.iter j (fun s => s / 1024) n) = true) ->
  Nat.iter k (fun s => s / 1024) n = Nat.iter k (fun s => Z.quot s 1024) n.
Proof.
  induction k as [|k IH]; intros H; [reflexivity|].
  rewrite !Nat.iter_succ, <- IH by (intros j Hj; apply H; lia).
  specialize (H k (Nat.lt_succ_diag_r k)). apply Z.leb_le in H.
  symmetry. apply Z.quot_div_nonneg; lia.
Qed.

Lemma iter_div_pow (k : nat) (n : Z) :
  Nat.iter k (fun s => s / 1024) n = n / 1024 ^ Z.of_nat k.
Proof.
  induction k as [|k IH]; [cbn; symmetry; apply Z.div_1_r|].
  rewrite Nat.iter_succ, IH, Z.div_div by lia.
  f_equal. rewrite Nat2Z.inj_succ, Z.pow_succ_r by lia. lia.
Qed.

Lemma numfmt_int_loop (n : Z) :
  exists k : nat,
    numfmt_while (fun s => 1024 <=? s) (fun s => s / 1024) marks n 0
      = (n / 1024 ^ Z.of_nat k, k)
    /\ (forall j, (j < k)%nat -> 1024 <= n / 1024 ^ Z.of_nat j)
    /\ (k <= 5)%nat
    /\ (n / 1024 ^ Z.of_nat k < 1024 \/ k = 5%nat).
Proof.
  destruct (numfmt_while_iter (fun s => 1024 <=? s) (fun s => s / 1024)
              marks 5 n 0 eq_refl) as (k & Hk & Hall & Hle & Hend).
  exists k. rewrite iter_div_pow in Hk, Hend. cbn in Hle.
  split; [exact Hk|]. split; [|split; [exact Hle|]].
  - intros j Hj. specialize (Hall j Hj). rewrite iter_div_pow in Hall.
    apply Z.leb_le. exact Hall.
  - destruct Hend as [Hend|Hend]; [left; apply Z.leb_gt; exact Hend|].
    right. cbn in Hend. lia.
Qed.

(** Whatever the number, the result ends in one of the five marks or in
    none. *)
Lemma numfmt_mark (s : num) :
  exists body mark : string,
    numfmt s = (body ++ mark)%string
    /\ In mark [""; "K"; "M"; "G"; "T"; "P"].
Proof.
  destruct s as [n|x]; unfold numfmt.
  - destruct (numfmt_while_iter (fun s => 1024 <=? s) (fun s => s / 1024)
                marks 5 n 0 eq_refl) as (k & Hk & _ & Hle & _).
    rewrite Hk. eexists. eexists. split; [reflexivity|].
    apply marks_slice. cbn in Hle. lia.
  - destruct (numfmt_while_iter (fun s => float_ge_int s 1024)
                (fun s => fdiv s (float_of_int 1024))
                marks 5 x 0 eq_refl) as (k & Hk & _ & Hle & _).
    rewrite Hk. eexists. eexists. split; [reflexivity|].
    apply marks_slice. cbn in Hle. lia.
Qed.

(** C10: from 1024^5 on the loop runs five times and the mark is "P",
    so from 1024^6 on the number before the mark is 1024 or more; no
    other mark than K, M, G, T and P is ever appended. *)
Theorem numfmt_caps_at_P (n : Z) (H : 1024 ^ 5 <= n) :
  numfmt_while (fun s => 1024 <=? s) (fun s => s / 1024) marks n 0
    = (n / 1024 ^ 5, 5%nat)
  /\ numfmt (PyInt n) = (str (n / 1024 ^ 5) ++ "P")%string
  /\ (1024 ^ 6 <= n -> 1024 <= n / 1024 ^ 5)
  /\ numfmt (PyInt (2 ^ 60)) = "1024P"
  /\ (forall s : num, exists body mark : string,
        numfmt s = (body ++ mark)%string
        /\ In mark [""; "K"; "M"; "G"; "T"; "P"]).
Proof.
  assert (Hloop : numfmt_while (fun s => 1024 <=? s) (fun s => s / 1024)
                    marks n 0 = (n / 1024 ^ 5, 5%nat)).
  { destruct (numfmt_int_loop n) as (k & Hk & _ & Hle & Hend).
    assert (k = 5%nat) as ->; [|exact Hk].
    destruct Hend as [Hend|Hend]; [|exact Hend].
    destruct (Nat.eq_dec k 5) as [E|E]; [exact E|exfalso].
    assert (1024 <= n / 1024 ^ Z.of_nat k); [|lia].
    apply Z.div_le_lower_bound; [lia|].
    destruct k as [|[|[|[|[|k]]]]]; cbn in *; lia. }
  split; [exact Hloop|]. split; [|split; [|split]].
  - unfold numfmt. rewrite Hloop. reflexivity.
  - intros H6. apply Z.div_le_lower_bound; lia.
  - vm_compute. reflexivity.
  - exact numfmt_mark.
Qed.

(** The same at 2^60. *)
Lemma numfmt_caps_at_P_witness :
  1024 ^ 5 <= 2 ^ 60 /\
  numfmt (PyInt (2 ^ 60)) = (str (2 ^ 60 / 1024 ^ 5) ++ "P")%string.
Proof.
  split; [vm_compute; discriminate|].
  apply (numfmt_caps_at_P (2 ^ 60)). vm_compute. discriminate.
Defined.

Lemma append_assoc (a b c : string) :
  ((a ++ b) ++ c = a ++ (b ++ c))%string.
Proof.
  induction a as [|x a IH]; [reflexivity|]. cbn. rewrite IH. reflexivity.
Qed.

Lemma no_decimals_app (a b : string) :
  no_decimals a = true -> no_decimals b = true ->
  no_decimals (a ++ b) = true.
Proof.
  unfold no_decimals. induction a as [|x a IH]; cbn; [tauto|].
  intros Ha Hb. apply andb_prop in Ha as [Hx Ha].
  rewrite Hx. cbn. apply IH; assumption.
Qed.

Lemma string_of_uint_no_decimals (d : Decimal.uint) :
  no_decimals (NilEmpty.string_of_uint d) = true.
Proof.
  induction d; cbn; try reflexivity; exact IHd.
Qed.

(** [str] prints an integer without decimal places. *)
Lemma str_no_decimals (n : Z) : no_decimals (str n) = true.
Proof.
  unfold str, NilZero.string_of_int, NilZero.string_of_uint.
  destruct (Z.to_int n) as [d|d]; destruct d;
    try reflexivity; try apply string_of_uint_no_decimals;
    apply (no_decimals_app "-"); try reflexivity;
    apply string_of_uint_no_decimals.
Qed.

Lemma str_one_digit (d : Z) :
  0 <= d <= 9 -> exists c : ascii, str d = String c "" /\ is_digit c = true.
Proof.
  intros H.
  assert (C : d = 0 \/ d = 1 \/ d = 2 \/ d = 3 \/ d = 4 \/ d = 5 \/ d = 6
              \/ d = 7 \/ d = 8 \/ d = 9) by lia.
  repeat (destruct C as [->|C]; [eexists; split; reflexivity|]).
  subst d. eexists; split; reflexivity.
Qed.

Lemma round_half_even_nonneg (num den : Z) :
  0 <= num -> 0 < den -> 0 <= round_half_even num den.
Proof.
  intros Hn Hd. unfold round_half_even.
  pose proof (Z.div_pos num den Hn Hd).
  destruct (2 * (num mod den) ?= den); [destruct (Z.even _)| |]; lia.
Qed.

Lemma hundredths_nonneg (m : positive) (e : Z) : 0 <= hundredths m e.
Proof.
  unfold hundredths. destruct e as [|k|k].
  - cbn. lia.
  - assert (0 < 2 ^ Z.pos k) by (apply Z.pow_pos_nonneg; lia). nia.
  - apply round_half_even_nonneg; [lia|apply Z.pow_pos_nonneg; lia].
Qed.

(** [.2f] prints a finite float with exactly two decimal places. *)
Lemma format_2f_two_decimals (x : float) :
  is_finite x = true -> two_decimals (format_2f x).
Proof.
  destruct x as [s|s| |s m e]; cbn [is_finite]; try discriminate; intros _.
  - exists (sign_str s ++ "0")%string, "0"%char, "0"%char.
    destruct s; repeat split; reflexivity.
  - unfold format_2f, two_digits.
    set (c := hundredths m e).
    assert (Hc : 0 <= c) by apply hundredths_nonneg.
    assert (Hr : 0 <= c mod 100 < 100) by (apply Z.mod_pos_bound; lia).
    destruct (str_one_digit (c mod 100 / 10)) as (c1 & E1 & D1).
    { split; [apply Z.div_pos; lia|].
      apply Z.lt_succ_r. apply Z.div_lt_upper_bound; lia. }
    destruct (str_one_digit ((c mod 100) mod 10)) as (c2 & E2 & D2).
    { pose proof (Z.mod_pos_bound (c mod 100) 10). lia. }
    exists (sign_str s ++ str (c / 100))%string, c1, c2.
    rewrite E1, E2, append_assoc. repeat split; try assumption.
    apply no_decimals_app; [destruct s; reflexivity|apply str_no_decimals].
Qed.

(** C8: the six renderings of the specification, and the rule behind
    them: an integer is divided by 1024 with truncation as long as it is
    at least 1024 and a mark is left, and printed without decimal places;
    a float is divided by 1024.0 in the same way and printed with exactly
    two decimal places. *)
Theorem numfmt_examples_and_rule :
  numfmt (PyInt 0) = "0"
  /\ numfmt (PyInt 1023) = "1023"
  /\ numfmt (PyInt 1024) = "1K"
  /\ numfmt (PyInt 1048576) = "1M"
  /\ numfmt (PyFloat (float_of_int 1536)) = "1.50K"
  /\ numfmt (PyFloat (float_of_int 1073741824)) = "1.00G"
  /\ (forall n : Z, exists k : nat,
        let n' := Nat.iter k (fun s => Z.quot s 1024) n in
        numfmt (PyInt n)
          = (str n' ++ slice marks (Z.of_nat k - 1) (Z.of_nat k))%string
        /\ no_decimals (str n') = true
        /\ (forall j, (j < k)%nat ->
              1024 <= Nat.iter j (fun s => Z.quot s 1024) n)
        /\ (n' < 1024 \/ k = 5%nat))
  /\ (forall x : float, exists k : nat,
        let x' := Nat.iter k (fun s => fdiv s (float_of_int 1024)) x in
        numfmt (PyFloat x)
          = (format_2f x' ++ slice marks (Z.of_nat k - 1) (Z.of_nat k))%string
        /\ (is_finite x' = true -> two_decimals (format_2f x'))
        /\ (forall j, (j < k)%nat ->
              float_ge_int
                (Nat.iter j (fun s => fdiv s (float_of_int 1024)) x) 1024
              = true)
        /\ (float_ge_int x' 1024 = false \/ k = 5%nat)).
Proof.
  repeat (split; [vm_compute; reflexivity|]). split.
  - intros n.
    destruct (numfmt_while_iter (fun s => 1024 <=? s) (fun s => s / 1024)
                marks 5 n 0 eq_refl) as (k & Hk & Hall & Hle & Hend).
    exists k. cbn zeta.
    assert (Hq : forall j, (j <= k)%nat ->
                 Nat.iter j (fun s => s / 1024) n
                 = Nat.iter j (fun s => Z.quot s 1024) n).
    { intros j Hj. apply floor_is_trunc. intros i Hi. apply Hall. lia. }
    rewrite <- (Hq k (Nat.le_refl k)).
    split; [unfold numfmt; rewrite Hk; reflexivity|].
    split; [apply str_no_decimals|]. split.
    + intros j Hj. rewrite <- Hq by lia. apply Z.leb_le. apply Hall. exact Hj.
    + destruct Hend as [Hend|Hend]; [left; apply Z.leb_gt; exact Hend|].
      right. cbn in Hle, Hend. lia.
  - intros x.
    destruct (numfmt_while_iter (fun s => float_ge_int s 1024)
                (fun s => fdiv s (float_of_int 1024))
                marks 5 x 0 eq_refl) as (k & Hk & Hall & Hle & Hend).
    exists k. cbn zeta.
    split; [unfold numfmt; rewrite Hk; reflexivity|].
    split; [apply format_2f_two_decimals|]. split; [exact Hall|].
    destruct Hend as [Hend|Hend]; [left; exact Hend|].
    right. cbn in Hle, Hend. lia.
Qed.

(** The rule at the float 1536.0. *)
Lemma numfmt_examples_and_rule_witness :
  exists k : nat,
    numfmt (PyFloat (float_of_int 1536))
    = (format_2f (Nat.iter k (fun s => fdiv s (float_of_int 1024))
                    (float_of_int 1536))
       ++ slice marks (Z.of_nat k - 1) (Z.of_nat k))%string.
Proof.
  destruct numfmt_examples_and_rule as (_ & _ & _ & _ & _ & _ & _ & H).
  destruct (H (float_of_int 1536)) as (k & Hk & _).
  exists k. exact Hk.
Defined.

(* ===================================================================== *)
(** ** The run as a whole *)
(* ===================================================================== *)

(** C9: the scenario of the specification.  Four samples are read, the
    largest is 3000000, the edges are 0, 1 and the powers of two from 32
    up to 2^22 = 4194304, the counts add up to 4, and the mean 750502.5 is
    shown as 732.91K. *)
Theorem scenario_end_to_end :
  exists a : analysis,
    analyse scenario = Ok a
    /\ data a = [0; 10; 2000; 3000000]
    /\ files a = 4
    /\ Np.max (data a) = Ok 3000000
    /\ maxdatalog2 a = 22
    /\ bins a = ([0; 1] ++ map (fun x => 2 ^ x) (range 5 23))%list
    /\ firstn 4 (bins a) = [0; 1; 32; 64]
    /\ last (bins a) 0 = 4194304
    /\ total_count (hist a) = 4
    /\ denotes (mean a) 7505025 10 = true
    /\ numfmt (PyFloat (mean a)) = "732.91K"
    /\ text_mean (render a) = "Mean: 732.91K"
    /\ analyse (readlines scenario_text) = Ok a
    /\ main (argv_for "sizes.txt") (single_file "sizes.txt" scenario_text)
       = Shown (render a).
Proof.
  eexists. split; [vm_compute; reflexivity|].
  repeat split; vm_compute; reflexivity.
Qed.

(** C7, as the script has it: without an input argument the three usage
    lines are printed and the exit status is 1. *)
Theorem usage_three_lines (argv : list string)
    (open : string -> option string) :
  (List.length argv < 2)%nat ->
  main argv open = Exited usage 1 /\ List.length usage = 3%nat.
Proof.
  intros H. unfold main.
  apply Nat.ltb_lt in H. rewrite H. split; reflexivity.
Qed.

(** The run with the program name alone. *)
Lemma usage_three_lines_witness :
  main ["filesizehistogram.py"] (fun _ => None) = Exited usage 1
  /\ List.length usage = 3%nat.
Proof.
  apply (usage_three_lines ["filesizehistogram.py"] (fun _ => None)).
  cbn. lia.
Defined.

(** C7 as stated fails: the message does not have two lines. *)
Lemma usage_not_two_lines :
  ~ (exists out : list string,
       main ["filesizehistogram.py"] (fun _ => None) = Exited out 1
       /\ List.length out = 2%nat).
Proof.
  intros (out & H & L). vm_compute in H. injection H as <-. discriminate L.
Qed.

(** C6, as the script has it: the empty input is loaded without
    complaint, and the run ends in the exception that [data.max()]
    raises for an empty array. *)
Theorem empty_input_fails_in_max (path : string)
    (open : string -> option string) :
  open (if String.eqb path "-" then "/dev/stdin" else path) = Some "" ->
  readlines "" = []
  /\ load [] = Ok []
  /\ Np.max [] = Raise ValueError_max_empty
  /\ main (argv_for path) open = Raised ValueError_max_empty.
Proof.
  intros Ho. split; [reflexivity|]. split; [reflexivity|].
  split; [reflexivity|]. unfold main, argv_for. cbn [List.length Nat.ltb Nat.leb nth].
  rewrite Ho. reflexivity.
Qed.

(** The run on an empty file. *)
Lemma empty_input_fails_in_max_witness :
  main (argv_for "sizes.txt") (single_file "sizes.txt" "")
  = Raised ValueError_max_empty.
Proof.
  apply (empty_input_fails_in_max "sizes.txt" (single_file "sizes.txt" "")).
  reflexivity.
Defined.

(** C6 as stated fails: on the empty input the exception comes out of
    the statistics, not out of a check made before them. *)
Lemma empty_input_not_rejected_early :
  ~ (exists e : exn,
       main (argv_for "sizes.txt") (single_file "sizes.txt" "") = Raised e
       /\ raised_by_statistics e = false).
Proof.
  intros (e & H & R). vm_compute in H. injection H as <-. discriminate R.
Qed.

(* ===================================================================== *)
(** ** Reading the input *)
(* ===================================================================== *)

Lemma split_before_space (x : string) :
  exists pieces : list string, split " " x = before_space x :: pieces.
Proof.
  induction x as [|c x (pieces & IH)]; cbn [split before_space].
  - eexists. reflexivity.
  - destruct (Ascii.eqb c " "); [eexists; reflexivity|].
    rewrite IH. eexists. reflexivity.
Qed.

Lemma split_head (x : string) : nth 0 (split " " x) "" = before_space x.
Proof.
  destruct (split_before_space x) as (pieces & ->). reflexivity.
Qed.

Lemma before_space_app_space (tok rest : string) :
  before_space tok = tok ->
  before_space (tok ++ String " " rest) = tok.
Proof.
  induction tok as [|c tok IH]; cbn [append before_space]; [reflexivity|].
  destruct (Ascii.eqb c " "); [discriminate|].
  intros [= H]. rewrite (IH H). reflexivity.
Qed.

Lemma is_digit_facts (c : ascii) :
  is_digit c = true ->
  digit_value c = Some (Z.of_nat (nat_of_ascii c) - 48)
  /\ Ascii.eqb c underscore = false
  /\ Ascii.eqb c " " = false
  /\ is_space c = false
  /\ c <> "-"%char /\ c <> "+"%char.
Proof.
  destruct c as [[] [] [] [] [] [] [] []]; vm_compute; intros H;
    try discriminate H; repeat split; discriminate.
Qed.

Lemma all_digits_before_space (tok : string) :
  all_digits tok = true -> before_space tok = tok.
Proof.
  unfold all_digits. induction tok as [|c tok IH]; cbn; [reflexivity|].
  intros H. apply andb_prop in H as [Hc H].
  destruct (is_digit_facts c Hc) as (_ & _ & -> & _).
  rewrite (IH H). reflexivity.
Qed.

(** A run of digits is scanned to its end and yields its value. *)
Lemma scan_digits_all_digits (tok : string) :
  all_digits tok = true ->
  forall (prev : option ascii) (acc : Z),
    scan_digits prev acc tok =
    match tok with
    | EmptyString => digits_end prev acc ""
    | _ => Some (fold_left
                   (fun acc c => 10 * acc + (Z.of_nat (nat_of_ascii c) - 48))
                   (list_ascii_of_string tok) acc, "")
    end.
Proof.
  unfold all_digits. induction tok as [|c tok IH]; cbn [scan_digits];
    [reflexivity|].
  cbn [list_ascii_of_string forallb fold_left].
  intros H prev acc. apply andb_prop in H as [Hc H].
  destruct (is_digit_facts c Hc) as (-> & Hu & _). rewrite Hu.
  rewrite (IH H). destruct tok; [|reflexivity].
  cbn. rewrite Hu. reflexivity.
Qed.

Lemma int_of_str_digits (tok : string) :
  tok <> "" -> all_digits tok = true ->
  int_of_str tok = Ok (decimal_value tok)
  /\ int_of_str ("-" ++ tok) = Ok (- decimal_value tok).
Proof.
  intros Hne Hd. unfold int_of_str.
  destruct tok as [|c tok]; [congruence|].
  assert (Hc : is_digit c = true).
  { unfold all_digits in Hd. cbn in Hd. apply andb_prop in Hd. tauto. }
  destruct (is_digit_facts c Hc) as (_ & _ & _ & Hs & Hm & Hp).
  split.
  - cbn [lstrip]. rewrite Hs.
    replace (match String c tok with
             | String "-" r => (true, r)
             | String "+" r => (false, r)
             | _ => (false, String c tok)
             end) with (false, String c tok).
    + cbv beta iota zeta. rewrite (scan_digits_all_digits _ Hd). reflexivity.
    + clear - Hm Hp.
      destruct c as [[] [] [] [] [] [] [] []]; try reflexivity; congruence.
  - change ("-" ++ String c tok)%string with (String "-" (String c tok)).
    cbn [lstrip]. change (is_space "-") with false. cbv beta iota zeta.
    rewrite (scan_digits_all_digits _ Hd). reflexivity.
Qed.

Lemma comprehension_ok {A B : Type} (f : A -> result B) (l : list A)
    (ys : list B) :
  comprehension f l = Ok ys <-> Forall2 (fun x y => f x = Ok y) l ys.
Proof.
  revert ys. induction l as [|x l IH]; intros ys; cbn.
  - split; [intros [= <-]; constructor|inversion 1; reflexivity].
  - split.
    + destruct (f x) as [y|e] eqn:Hx; cbn; [|discriminate].
      destruct (comprehension f l) as [ys'|e]; cbn; [|discriminate].
      intros [= <-]. constructor; [exact Hx|]. apply IH. reflexivity.
    + inversion 1 as [|? y ? ys' Hx Hl]; subst.
      rewrite Hx. cbn. apply IH in Hl. rewrite Hl. reflexivity.
Qed.

Lemma comprehension_raise {A B : Type} (f : A -> result B) (l : list A) :
  (exists e, comprehension f l = Raise e)
  <-> Exists (fun x => exists e, f x = Raise e) l.
Proof.
  induction l as [|x l IH]; cbn.
  - split; [intros (e & [=])|inversion 1].
  - split.
    + destruct (f x) as [y|e] eqn:Hx; cbn.
      * destruct (comprehension f l) as [ys|e]; cbn; [intros (e & [=])|].
        intros _. apply Exists_cons_tl. apply IH. eexists. reflexivity.
      * intros _. apply Exists_cons_hd. eexists. exact Hx.
    + inversion 1 as [? ? (e & Hx)|? ? Hl]; subst.
      * rewrite Hx. eexists. reflexivity.
      * destruct (f x) as [y|e]; cbn; [|eexists; reflexivity].
        apply IH in Hl as (e & ->). eexists. reflexivity.
Qed.

(** C5, as the script has it: a line is read up to its first space and
    that text is given to [int()].  Loading fails exactly when [int()]
    rejects it for some line; decimal digits followed by a space and any
    remainder are read as their value, and so is a negative number. *)
Theorem load_reads_text_before_first_space :
  (forall lines : list string,
      (exists e, load lines = Raise e)
      <-> Exists (fun x => exists e, int_of_str (before_space x) = Raise e)
                 lines)
  /\ (forall (lines : list string) (sizes : list Z),
        load lines = Ok sizes
        <-> Forall2 (fun x n => int_of_str (before_space x) = Ok n)
                    lines sizes)
  /\ (forall tok rest : string,
        tok <> "" -> all_digits tok = true ->
        load [tok ++ " " ++ rest]%string = Ok [decimal_value tok]
        /\ load ["-" ++ tok ++ " " ++ rest]%string = Ok [- decimal_value tok]).
Proof.
  split; [|split].
  - intros lines. unfold load. rewrite comprehension_raise.
    split; intros H; induction H as [x l (e & H)|x l H IH];
      try (apply Exists_cons_tl; exact IH);
      apply Exists_cons_hd; exists e;
      [rewrite <- split_head|rewrite split_head]; exact H.
  - intros lines sizes. unfold load. rewrite comprehension_ok.
    split; intros H; induction H as [|x n l ns H Hl IH]; constructor;
      try exact IH; [rewrite <- split_head|rewrite split_head]; exact H.
  - intros tok rest Hne Hd.
    destruct (int_of_str_digits tok Hne Hd) as [Hpos Hneg].
    pose proof (all_digits_before_space tok Hd) as Hb.
    unfold load. cbn [comprehension]. rewrite !split_head.
    change (before_space ("-" ++ tok ++ " " ++ rest))
      with (String "-" (before_space (tok ++ String " " rest))).
    change (tok ++ " " ++ rest)%string with (tok ++ String " " rest)%string.
    rewrite (before_space_app_space tok rest Hb).
    change (String "-" tok) with ("-" ++ tok)%string.
    rewrite Hpos, Hneg. split; reflexivity.
Qed.

(** A line as [find] prints it, and the same with a negative size. *)
Lemma load_reads_text_before_first_space_witness :
  load ["4096 ./notes.txt"] = Ok [4096]
  /\ load ["-4096 ./notes.txt"] = Ok [-4096].
Proof.
  destruct load_reads_text_before_first_space as (_ & _ & H).
  apply (H "4096" "./notes.txt"); [discriminate|reflexivity].
Defined.

(** C5 as stated fails in both directions: a negative first token is
    loaded, and a valid first token followed by a tab is rejected. *)
Lemma load_differs_from_token_rule :
  ~ ((exists e, load ["-5 name"] = Raise e)
     <-> Exists (fun x => spec_nonneg_integer (spec_first_token x) = None)
                ["-5 name"])
  /\ ~ ((exists e, load [("10" ++ tab ++ "name")%string] = Raise e)
        <-> Exists (fun x => spec_nonneg_integer (spec_first_token x) = None)
                   [("10" ++ tab ++ "name")%string]).
Proof.
  split; intros [H1 H2].
  - destruct H2 as (e & H); [constructor; reflexivity|].
    vm_compute in H. discriminate H.
  - assert (H : Exists
                  (fun x => spec_nonneg_integer (spec_first_token x) = None)
                  [("10" ++ tab ++ "name")%string])
      by (apply H1; eexists; vm_compute; reflexivity).
    inversion H as [? ? E|? ? E]; subst; [|inversion E].
    vm_compute in E. discriminate E.
Qed.

(* ===================================================================== *)
(** ** The histogram *)
(* ===================================================================== *)

Section Counting.

Variable samples : list Z.

Lemma count_nonneg (p : Z -> bool) : 0 <= count p samples.
Proof. unfold count. lia. Qed.

Lemma count_le_length (p : Z -> bool) :
  count p samples <= Z.of_nat (List.length samples).
Proof. unfold count. pose proof (filter_length_le p samples). lia. Qed.

Lemma count_all (p : Z -> bool) :
  (forall x, In x samples -> p x = true) ->
  count p samples = Z.of_nat (List.length samples).
Proof.
  intros H. unfold count. f_equal. f_equal.
  apply forallb_filter_id. apply forallb_forall. exact H.
Qed.

End Counting.

Lemma count_cons (p : Z -> bool) (x : Z) (l : list Z) :
  count p (x :: l) = (if p x then 1 else 0) + count p l.
Proof.
  unfold count. cbn [filter]. destruct (p x); cbn [List.length]; lia.
Qed.

(** Between two cumulative counts lie the samples of the bin. *)
Lemma count_between (lo hi : Z) (l : list Z) :
  lo <= hi ->
  count (fun x => x <? hi) l - count (fun x => x <? lo) l
  = count (fun x => (lo <=? x) && (x <? hi)) l.
Proof.
  intros H. induction l as [|x l IH]; [reflexivity|].
  rewrite !count_cons, <- IH.
  destruct (Z.ltb_spec x hi), (Z.ltb_spec x lo), (Z.leb_spec lo x);
    cbn [andb]; lia.
Qed.

Lemma count_between_closed (lo hi : Z) (l : list Z) :
  lo <= hi ->
  count (fun x => x <=? hi) l - count (fun x => x <? lo) l
  = count (fun x => (lo <=? x) && (x <=? hi)) l.
Proof.
  intros H. induction l as [|x l IH]; [reflexivity|].
  rewrite !count_cons, <- IH.
  destruct (Z.leb_spec x hi), (Z.ltb_spec x lo), (Z.leb_spec lo x);
    cbn [andb]; lia.
Qed.

Lemma count_split (lo mid hi : Z) (l : list Z) :
  lo <= mid <= hi ->
  count (fun x => (lo <=? x) && (x <? mid)) l
  + count (fun x => (mid <=? x) && (x <=? hi)) l
  = count (fun x => (lo <=? x) && (x <=? hi)) l.
Proof.
  intros H. rewrite <- count_between, <- !count_between_closed by lia. lia.
Qed.

Lemma count_permutation (p : Z -> bool) (l l' : list Z) :
  Permutation l l' -> count p l = count p l'.
Proof.
  induction 1 as [|x l l' _ IH|x y l|l l' l'' _ IH1 _ IH2];
    rewrite ?count_cons; lia.
Qed.

Lemma insert_permutation (x : Z) (l : list Z) :
  Permutation (x :: l) (Np.insert x l).
Proof.
  induction l as [|y l IH]; cbn; [reflexivity|].
  destruct (x <=? y); [reflexivity|].
  rewrite perm_swap. apply perm_skip. exact IH.
Qed.

Lemma sort_permutation (l : list Z) : Permutation l (Np.sort l).
Proof.
  induction l as [|x l IH]; cbn; [constructor|].
  rewrite <- insert_permutation. apply perm_skip. exact IH.
Qed.

Lemma insert_ascending (x : Z) (l : list Z) :
  ascending l -> ascending (Np.insert x l).
Proof.
  induction 1 as [|y l Hy Hl IH]; cbn.
  - constructor; [intros ? []|constructor].
  - destruct (Z.leb_spec x y).
    + constructor; [|constructor; assumption].
      intros z [<-|Hz]; [assumption|]. specialize (Hy z Hz). lia.
    + constructor; [|exact IH].
      intros z Hz.
      apply (Permutation_in _ (Permutation_sym (insert_permutation x l)))
        in Hz as [<-|Hz]; [lia|apply Hy; exact Hz].
Qed.

Lemma sort_ascending (l : list Z) : ascending (Np.sort l).
Proof.
  induction l as [|x l IH]; cbn; [constructor|].
  apply insert_ascending. exact IH.
Qed.

(** On an array in ascending order the insertion points are counts. *)
Lemma searchsorted_left_count (a : list Z) (v : Z) :
  ascending a ->
  Z.of_nat (Np.searchsorted_left a v) = count (fun x => x <? v) a.
Proof.
  induction 1 as [|x a Hx Ha IH]; [reflexivity|].
  cbn [Np.searchsorted_left]. rewrite count_cons.
  destruct (Z.ltb_spec x v); [lia|].
  unfold count. replace (filter (fun x0 => x0 <? v) a) with (@nil Z);
    [reflexivity|].
  symmetry. clear IH Ha. induction a as [|y a IHa]; [reflexivity|].
  cbn [filter]. pose proof (Hx y (or_introl eq_refl)).
  destruct (Z.ltb_spec y v); [lia|].
  apply IHa. intros z Hz. apply Hx. right. exact Hz.
Qed.

Lemma searchsorted_right_count (a : list Z) (v : Z) :
  ascending a ->
  Z.of_nat (Np.searchsorted_right a v) = count (fun x => x <=? v) a.
Proof.
  induction 1 as [|x a Hx Ha IH]; [reflexivity|].
  cbn [Np.searchsorted_right]. rewrite count_cons.
  destruct (Z.leb_spec x v); [lia|].
  unfold count. replace (filter (fun x0 => x0 <=? v) a) with (@nil Z);
    [reflexivity|].
  symmetry. clear IH Ha. induction a as [|y a IHa]; [reflexivity|].
  cbn [filter]. pose proof (Hx y (or_introl eq_refl)).
  destruct (Z.leb_spec y v); [lia|].
  apply IHa. intros z Hz. apply Hx. right. exact Hz.
Qed.

Lemma monotonic_cons (x y : Z) (l : list Z) :
  Np.monotonic (x :: y :: l) = true
  <-> x <= y /\ Np.monotonic (y :: l) = true.
Proof.
  cbn [Np.monotonic]. rewrite andb_true_iff, Z.leb_le. reflexivity.
Qed.

Lemma monotonic_hd_le_last (l : list Z) (x : Z) :
  Np.monotonic (x :: l) = true -> x <= last (x :: l) 0.
Proof.
  revert x. induction l as [|y l IH]; intros x H; [cbn; lia|].
  apply monotonic_cons in H as [Hxy H]. specialize (IH y H).
  change (last (x :: y :: l) 0) with (last (y :: l) 0). lia.
Qed.

Lemma search_sorted_inclusive_cons (sa : list Z) (lo hi : Z) (rest : list Z) :
  Np.search_sorted_inclusive sa (lo :: hi :: rest)
  = Z.of_nat (Np.searchsorted_left sa lo)
    :: Np.search_sorted_inclusive sa (hi :: rest).
Proof.
  unfold Np.search_sorted_inclusive.
  change (removelast (lo :: hi :: rest)) with (lo :: removelast (hi :: rest)).
  cbn [List.length map app]. rewrite !Nat.sub_succ, !Nat.sub_0_r.
  reflexivity.
Qed.

(** The differences of the cumulative counts are the counts per bin. *)
Lemma diff_cumulative (sa : list Z) :
  ascending sa ->
  forall edges : list Z,
    Np.monotonic edges = true ->
    Np.diff (Np.search_sorted_inclusive sa edges) = bin_counts sa edges.
Proof.
  intros Hsa edges. induction edges as [|lo edges IH]; [reflexivity|].
  destruct edges as [|hi rest]; [reflexivity|].
  intros H. apply monotonic_cons in H as [Hle H]. specialize (IH H).
  rewrite search_sorted_inclusive_cons.
  destruct rest as [|r rest].
  - cbn. rewrite searchsorted_left_count, searchsorted_right_count by assumption.
    rewrite count_between_closed by assumption. reflexivity.
  - rewrite search_sorted_inclusive_cons in *.
    cbn [Np.diff bin_counts] in *. rewrite IH.
    rewrite !searchsorted_left_count by assumption.
    rewrite count_between by assumption. reflexivity.
Qed.

Lemma bin_counts_permutation (l l' edges : list Z) :
  Permutation l l' -> bin_counts l edges = bin_counts l' edges.
Proof.
  intros P. induction edges as [|lo edges IH]; [reflexivity|].
  destruct edges as [|hi [|r rest]]; [reflexivity| |].
  - cbn. rewrite (count_permutation _ _ _ P). reflexivity.
  - cbn [bin_counts] in *. rewrite IH, (count_permutation _ _ _ P).
    reflexivity.
Qed.

(** [np.histogram] counts as documented. *)
Lemma histogram_bin_counts (a edges : list Z) :
  Np.monotonic edges = true ->
  Np.histogram a edges = Ok (bin_counts a edges, edges).
Proof.
  intros H. unfold Np.histogram. rewrite H.
  rewrite (diff_cumulative _ (sort_ascending a) _ H).
  rewrite <- (bin_counts_permutation _ _ edges (sort_permutation a)).
  reflexivity.
Qed.

(** The counts add up to the number of samples between the first and
    the last edge: samples outside are in no bin. *)
Lemma bin_counts_total (a : list Z) (lo hi : Z) (rest : list Z) :
  Np.monotonic (lo :: hi :: rest) = true ->
  total_count (bin_counts a (lo :: hi :: rest))
  = within_edges a (lo :: hi :: rest).
Proof.
  unfold within_edges. cbn [hd].
  revert lo hi. induction rest as [|r rest IH]; intros lo hi H.
  - cbn. lia.
  - apply monotonic_cons in H as [Hle H].
    pose proof (monotonic_hd_le_last _ _ H) as Hlast.
    specialize (IH hi r H).
    change (bin_counts a (lo :: hi :: r :: rest))
      with (count (fun x => (lo <=? x) && (x <? hi)) a
            :: bin_counts a (hi :: r :: rest)).
    change (total_count (?x :: ?l)) with (x + total_count l). rewrite IH.
    change (last (lo :: hi :: r :: rest) 0) with (last (hi :: r :: rest) 0).
    apply count_split. lia.
Qed.

Lemma bin_counts_length (a edges : list Z) :
  List.length (bin_counts a edges) = (List.length edges - 1)%nat.
Proof.
  induction edges as [|lo edges IH]; [reflexivity|].
  destruct edges as [|hi [|r rest]]; [reflexivity|reflexivity|].
  cbn [bin_counts List.length] in *. rewrite IH. lia.
Qed.

(* ===================================================================== *)
(** ** The edges *)
(* ===================================================================== *)

Lemma range_unfold (a b : Z) :
  range a b = if a <? b then a :: range (a + 1) b else [].
Proof.
  unfold range. destruct (Z.ltb_spec a b) as [H|H].
  - replace (Z.to_nat (b - a)) with (S (Z.to_nat (b - (a + 1)))) by lia.
    cbn [seq map]. rewrite <- seq_shift, map_map. f_equal; [lia|].
    apply map_ext. intros i. lia.
  - replace (Z.to_nat (b - a)) with 0%nat by lia. reflexivity.
Qed.

Lemma range_empty (a b : Z) : b <= a -> range a b = [].
Proof.
  intros H. rewrite range_unfold.
  destruct (Z.ltb_spec a b); [lia|reflexivity].
Qed.

Lemma strictly_increasing_cons (x y : Z) (l : list Z) :
  strictly_increasing (x :: y :: l) = true
  <-> x < y /\ strictly_increasing (y :: l) = true.
Proof.
  cbn [strictly_increasing]. rewrite andb_true_iff, Z.ltb_lt. reflexivity.
Qed.

Lemma strictly_increasing_monotonic (l : list Z) :
  strictly_increasing l = true -> Np.monotonic l = true.
Proof.
  induction l as [|x l IH]; [reflexivity|].
  destruct l as [|y l]; [reflexivity|].
  rewrite strictly_increasing_cons, monotonic_cons.
  intros [H1 H2]. split; [lia|apply IH; exact H2].
Qed.

Lemma strictly_increasing_nth (l : list Z) :
  strictly_increasing l = true ->
  forall j k : nat, (j < k < List.length l)%nat -> nth j l 0 < nth k l 0.
Proof.
  induction l as [|x l IH]; intros H j k Hjk; [cbn in Hjk; lia|].
  destruct l as [|y l]; [cbn in Hjk; lia|].
  apply strictly_increasing_cons in H as [Hxy H]. specialize (IH H).
  destruct k as [|k]; [lia|]. destruct j as [|j].
  - change (nth 0 (x :: y :: l) 0) with x.
    change (nth (S k) (x :: y :: l) 0) with (nth k (y :: l) 0).
    destruct k as [|k]; [exact Hxy|].
    specialize (IH 0%nat (S k)). cbn [List.length] in *.
    change (nth 0 (y :: l) 0) with y in IH. specialize (IH ltac:(lia)). lia.
  - change (nth (S j) (x :: y :: l) 0) with (nth j (y :: l) 0).
    change (nth (S k) (x :: y :: l) 0) with (nth k (y :: l) 0).
    apply IH. cbn [List.length] in *. lia.
Qed.

(** Powers of two with growing exponents, after a start [x] below the
    first of them: the list grows strictly, and ends in the last power. *)
Lemma powers_increasing (n : nat) :
  forall a b x : Z,
    Z.to_nat (b - a) = n -> 0 <= a -> x < 2 ^ a ->
    strictly_increasing (x :: map (fun e => 2 ^ e) (range a b)) = true
    /\ last (x :: map (fun e => 2 ^ e) (range a b)) 0
       = (if a <? b then 2 ^ (b - 1) else x).
Proof.
  induction n as [|n IH]; intros a b x Hn Ha Hx; rewrite range_unfold;
    destruct (Z.ltb_spec a b) as [Hab|Hab]; try lia; [split; reflexivity|].
  destruct (IH (a + 1) b (2 ^ a)) as [Hm Hl]; [lia|lia| |].
  { apply Z.pow_lt_mono_r; lia. }
  cbn [map]. split.
  - apply strictly_increasing_cons. split; assumption.
  - change (last (x :: 2 ^ a :: ?l) 0) with (last (2 ^ a :: l) 0).
    rewrite Hl. destruct (Z.ltb_spec (a + 1) b); [reflexivity|].
    f_equal. lia.
Qed.

(** What [edges] yields: nothing for a largest size of 0 or less;
    otherwise 0, 1 and the powers of two from 2^5 up to 2^k, with [k] the
    smaller of 31 and the rounded-up logarithm. *)
Lemma edges_spec (largest : Z) :
  (largest <= 0 -> edges largest = Raise ValueError_math_domain)
  /\ (0 < largest ->
      let k := Z.min (Z.log2_up largest) 31 in
      let bins := (0 :: 1 :: map (fun e => 2 ^ e) (range 5 (k + 1))) in
      edges largest = Ok (k, bins)
      /\ Np.monotonic bins = true
      /\ last bins 0 = (if 5 <=? k then 2 ^ k else 1)
      /\ strictly_increasing bins = true).
Proof.
  unfold edges, ceil_log2. split; intros H.
  - destruct (Z.leb_spec largest 0); [reflexivity|lia].
  - destruct (Z.leb_spec largest 0); [lia|]. cbn zeta.
    split; [reflexivity|].
    set (k := Z.min (Z.log2_up largest) 31).
    destruct (powers_increasing _ 5 (k + 1) 1 eq_refl) as [Hm Hl];
      [lia|cbn; lia|].
    assert (Hs : strictly_increasing
                   (0 :: 1 :: map (fun e => 2 ^ e) (range 5 (k + 1))) = true)
      by (apply strictly_increasing_cons; split; [lia|exact Hm]).
    split; [apply strictly_increasing_monotonic; exact Hs|].
    split; [|exact Hs].
    change (last (0 :: 1 :: ?l) 0) with (last (1 :: l) 0). rewrite Hl.
    destruct (Z.ltb_spec 5 (k + 1)), (Z.leb_spec 5 k); try lia.
    f_equal. lia.
Qed.

(** Up to a largest size of 16 there is no power of two among the
    edges. *)
Lemma edges_small (largest : Z) :
  0 < largest <= 16 -> edges largest = Ok (Z.log2_up largest, [0; 1]).
Proof.
  intros H. destruct (edges_spec largest) as [_ E].
  destruct (E (proj1 H)) as (-> & _).
  assert (Z.log2_up largest <= 4)
    by (change 4 with (Z.log2_up 16); apply Z.log2_up_le_mono; lia).
  rewrite Z.min_l by lia. rewrite range_empty by lia. reflexivity.
Qed.

(** From 17 on, 32 is an edge and the last edge is at least the largest
    size, as long as that is at most 2^31. *)
Lemma edges_large (largest : Z) :
  16 < largest ->
  exists (k : Z) (powers : list Z),
    edges largest = Ok (k, 0 :: 1 :: 32 :: powers)
    /\ last (0 :: 1 :: 32 :: powers) 0 = 2 ^ k
    /\ 5 <= k <= 31
    /\ (largest <= 2 ^ 31 -> largest <= 2 ^ k)
    /\ strictly_increasing (0 :: 1 :: 32 :: powers) = true.
Proof.
  intros H. destruct (edges_spec largest) as [_ E].
  destruct E as (E & _ & L & Hs); [lia|]. cbn zeta in *.
  assert (H5 : 4 < Z.log2_up largest).
  { apply Z.log2_up_lt_pow2; [lia|]. change (2 ^ 4) with 16. lia. }
  set (k := Z.min (Z.log2_up largest) 31) in *.
  assert (Hk : 5 <= k <= 31) by lia.
  rewrite range_unfold in E, L, Hs.
  destruct (Z.ltb_spec 5 (k + 1)); [|lia]. cbn [map] in E, L, Hs.
  destruct (Z.leb_spec 5 k); [|lia].
  exists k. eexists. split; [exact E|]. split; [exact L|].
  split; [exact Hk|]. split; [|exact Hs]. intros Hmax.
  destruct (Z.le_gt_cases (Z.log2_up largest) 31) as [Hl|Hl].
  - unfold k. rewrite Z.min_l by exact Hl.
    apply Z.log2_up_spec. lia.
  - exfalso. apply Z.log2_up_lt_pow2 in Hl; lia.
Qed.

(* ===================================================================== *)
(** ** The sorted search *)
(* ===================================================================== *)

Section BisectSpec.

Context {A : Type}.
Variable less : Z -> A -> bool.
Variable a : list Z.
Variable x : A.

(** [a] is in order as far as [x] can tell: what comes before an item
    less than [x] is less than [x] too. *)
Hypothesis less_downward :
  forall i j : nat,
    (i <= j < List.length a)%nat ->
    less (nth j a 0) x = true -> less (nth i a 0) x = true.

Lemma bisect_loop_spec (n : nat) :
  forall lo hi : nat,
    (hi - lo)%nat = n ->
    (lo <= hi <= List.length a)%nat ->
    (forall i, (i < lo)%nat -> less (nth i a 0) x = true) ->
    (forall i, (hi <= i < List.length a)%nat -> less (nth i a 0) x = false) ->
    let r := Bisect.bisect_loop less a x lo hi in
    (lo <= r <= hi)%nat
    /\ (forall i, (i < r)%nat -> less (nth i a 0) x = true)
    /\ (forall i, (r <= i < List.length a)%nat -> less (nth i a 0) x = false).
Proof.
  induction n as [n IH] using lt_wf_ind.
  intros lo hi Hn Hb Hlo Hhi. cbn zeta. rewrite bisect_loop_step.
  destruct (Nat.ltb_spec lo hi) as [Hlt|Hge].
  - pose proof (Nat.div_mod_eq (lo + hi) 2) as Hdiv.
    pose proof (Nat.mod_upper_bound (lo + hi) 2 (Nat.neq_succ_0 1)) as Hmod.
    set (mid := ((lo + hi) / 2)%nat) in *.
    destruct (less (nth mid a 0) x) eqn:Hmid.
    + destruct (IH (hi - (mid + 1))%nat ltac:(lia) (mid + 1)%nat hi eq_refl)
        as (Hr & Ht & Hf); [lia| |exact Hhi|].
      * intros i Hi. apply (less_downward i mid); [lia|exact Hmid].
      * split; [lia|]. split; assumption.
    + destruct (IH (mid - lo)%nat ltac:(lia) lo mid eq_refl)
        as (Hr & Ht & Hf); [lia|exact Hlo| |].
      * intros i Hi. destruct (less (nth i a 0) x) eqn:Hi'; [|reflexivity].
        rewrite (less_downward mid i) in Hmid; [discriminate|lia|exact Hi'].
      * split; [lia|]. split; assumption.
  - split; [lia|]. split; [exact Hlo|].
    intros i Hi. apply Hhi. lia.
Qed.

(** [bisect_left] returns the number of items less than [x]. *)
Lemma bisect_left_spec :
  let r := Bisect.bisect_left less a x in
  (r <= List.length a)%nat
  /\ (forall i, (i < r)%nat -> less (nth i a 0) x = true)
  /\ (forall i, (r <= i < List.length a)%nat -> less (nth i a 0) x = false).
Proof.
  destruct (bisect_loop_spec _ 0%nat (List.length a) eq_refl)
    as (Hr & Ht & Hf); try lia.
  split; [exact (proj2 Hr)|]. split; assumption.
Qed.

End BisectSpec.

(** For an [x] that compares with integers as the item [a[i]] does,
    [bisect_left] returns [i], the position of that item. *)
Lemma bisect_left_at_item {A : Type} (less : Z -> A -> bool) (a : list Z)
    (x : A) (i : nat) :
  (forall j k : nat, (j < k < List.length a)%nat -> nth j a 0 < nth k a 0) ->
  (i < List.length a)%nat ->
  (forall b : Z, less b x = (b <? nth i a 0)) ->
  Bisect.bisect_left less a x = i.
Proof.
  intros Hinc Hi Hless.
  destruct (bisect_left_spec less a x) as (Hr & Ht & Hf).
  - intros j k Hjk. rewrite !Hless, !Z.ltb_lt. intros Hk.
    destruct (Nat.eq_dec j k) as [->|Hne]; [exact Hk|].
    specialize (Hinc j k ltac:(lia)). lia.
  - set (r := Bisect.bisect_left less a x) in *.
    destruct (Nat.lt_trichotomy r i) as [Hlt|[Heq|Hgt]]; [|exact Heq|].
    + specialize (Hf r ltac:(lia)). rewrite Hless in Hf.
      apply Z.ltb_ge in Hf. specialize (Hinc r i ltac:(lia)). lia.
    + specialize (Ht i Hgt). rewrite Hless in Ht.
      apply Z.ltb_lt in Ht. lia.
Qed.

(* ===================================================================== *)
(** ** The analysis *)
(* ===================================================================== *)

Lemma analyse_inv (lines : list string) (a : analysis) :
  analyse lines = Ok a ->
  exists largest : Z,
    load lines = Ok (data a)
    /\ Np.max (data a) = Ok largest
    /\ edges largest = Ok (maxdatalog2 a, bins a)
    /\ median a = Np.median (data a)
    /\ mean a = Np.mean (data a)
    /\ bmedian a
       = Z.of_nat (Bisect.bisect_left int_lt_float (bins a) (median a)) - 1
    /\ bmean a
       = Z.of_nat (Bisect.bisect_left int_lt_float (bins a) (mean a)) - 1
    /\ files a = Z.of_nat (List.length (data a))
    /\ total a = Np.sum (data a)
    /\ Np.histogram (data a) (bins a) = Ok (hist a, bin_edges a).
Proof.
  unfold analyse.
  destruct (load lines) as [d|e] eqn:Hl; cbn [bind]; [|discriminate].
  destruct (Np.max d) as [largest|e] eqn:Hm; cbn [bind]; [|discriminate].
  destruct (edges largest) as [[k b]|e] eqn:He; cbn [bind]; [|discriminate].
  destruct (Np.histogram d b) as [[h be]|e] eqn:Hh; cbn [bind];
    [|discriminate].
  intros [= <-]. cbn. exists largest. repeat split; assumption.
Qed.

Lemma max_spec (d : list Z) (m : Z) :
  Np.max d = Ok m -> In m d /\ (forall y, In y d -> y <= m).
Proof.
  destruct d as [|x d]; [discriminate|]. cbn [Np.max]. intros [= <-].
  revert x. induction d as [|z d IH]; intros x; cbn [fold_left].
  - split; [left; reflexivity|]. intros y [<-|[]]. lia.
  - destruct (IH (Z.max x z)) as [Hin Hle]. split.
    + destruct Hin as [Hin|Hin]; [|right; right; exact Hin].
      rewrite <- Hin.
      destruct (Z.max_spec x z) as [[_ ->]|[_ ->]];
        [right; left|left]; reflexivity.
    + intros y [<-|[<-|Hy]];
        [pose proof (Hle _ (or_introl eq_refl)); lia ..|].
      apply Hle. right. exact Hy.
Qed.

(** The analysis goes through exactly when the input is read, is not
    empty and has a positive largest size; then the counts are those of
    the bins between the edges. *)
Lemma analyse_succeeds (lines : list string) (d : list Z) (largest : Z) :
  load lines = Ok d -> Np.max d = Ok largest -> 0 < largest ->
  exists a : analysis, analyse lines = Ok a /\ data a = d.
Proof.
  intros Hl Hm Hpos. unfold analyse. rewrite Hl. cbn [bind]. rewrite Hm.
  cbn [bind]. destruct (edges_spec largest) as [_ E].
  destruct (E Hpos) as (-> & Hmono & _). cbn [bind].
  rewrite (histogram_bin_counts _ _ Hmono). cbn [bind].
  eexists. split; reflexivity.
Qed.

Lemma analyse_counts (lines : list string) (a : analysis) :
  analyse lines = Ok a ->
  hist a = bin_counts (data a) (bins a)
  /\ total_count (hist a) = within_edges (data a) (bins a)
  /\ hd 0 (bins a) = 0
  /\ List.length (hist a) = (List.length (bins a) - 1)%nat.
Proof.
  intros H. apply analyse_inv in H
    as (largest & _ & Hm & He & _ & _ & _ & _ & _ & _ & Hh).
  destruct (edges_spec largest) as [Hneg Hpos].
  destruct (Z.le_gt_cases largest 0) as [Hl|Hl];
    [rewrite (Hneg Hl) in He; discriminate|].
  destruct (Hpos Hl) as (E & Hmono & _). cbv zeta in E, Hmono.
  match type of Hmono with Np.monotonic ?b = true =>
    assert (Hb : bins a = b) by congruence end.
  rewrite <- Hb in Hmono.
  rewrite (histogram_bin_counts _ _ Hmono) in Hh.
  assert (Hh' : hist a = bin_counts (data a) (bins a)) by congruence.
  rewrite Hh'. split; [reflexivity|]. split; [|split].
  - rewrite Hb in *. apply bin_counts_total. exact Hmono.
  - rewrite Hb. reflexivity.
  - apply bin_counts_length.
Qed.

(** Where the sizes are not negative, none is above 2^31 and one is
    above 16, every sample is in a bin. *)
Lemma counts_add_up_in_range (lines : list string) (a : analysis) :
  analyse lines = Ok a ->
  (forall x, In x (data a) -> 0 <= x <= 2 ^ 31) ->
  (exists x, In x (data a) /\ 16 < x) ->
  total_count (hist a) = files a.
Proof.
  intros H Hrange (x & Hx & Hbig).
  destruct (analyse_counts _ _ H) as (_ & -> & _).
  apply analyse_inv in H
    as (largest & _ & Hm & He & _ & _ & _ & _ & -> & _).
  destruct (max_spec _ _ Hm) as [Hin Hle].
  destruct (edges_large largest) as (k & powers & E & Hlast & _ & Hk & _).
  { specialize (Hle x Hx). lia. }
  assert (Hb : bins a = 0 :: 1 :: 32 :: powers) by congruence.
  rewrite Hb. unfold within_edges. rewrite Hlast. cbn [hd].
  apply count_all. intros y Hy.
  specialize (Hk (proj2 (Hrange largest Hin))).
  specialize (Hle y Hy). specialize (Hrange y Hy).
  apply andb_true_intro. split; [apply Z.leb_le|apply Z.leb_le]; lia.
Qed.

Lemma range_In (a b x : Z) : In x (range a b) <-> a <= x < b.
Proof.
  unfold range. rewrite in_map_iff. split.
  - intros (i & <- & Hi). apply in_seq in Hi. lia.
  - intros H. exists (Z.to_nat (x - a)). split; [lia|].
    apply in_seq. lia.
Qed.

(** The edges the script can produce, as floats, compare with integers
    as the edges themselves do: they are converted exactly. *)
Lemma edge_as_float (e : Z) :
  In e (0 :: 1 :: map (fun k => 2 ^ k) (range 5 32)) ->
  forall b : Z, int_lt_float b (float_of_int e) = (b <? e).
Proof.
  intros H. vm_compute in H.
  repeat (destruct H as [<-|H];
          [intros b; unfold int_lt_float;
           match goal with |- context [float_of_int ?n] =>
             let v := eval vm_compute in (float_of_int n) in
             change (float_of_int n) with v
           end;
           cbn [compare_float_int];
           match goal with
           | |- _ = (b <? ?n) => destruct (Z.ltb_spec b n)
           end;
           match goal with
           | |- context [?x ?= ?y] => destruct (Z.compare_spec x y)
           end; try reflexivity; exfalso; lia | ]).
  destruct H.
Qed.

Lemma analyse_bins (lines : list string) (a : analysis) :
  analyse lines = Ok a ->
  strictly_increasing (bins a) = true
  /\ (forall e, In e (bins a) ->
        In e (0 :: 1 :: map (fun k => 2 ^ k) (range 5 32))).
Proof.
  intros H. apply analyse_inv in H as (largest & _ & _ & He & _).
  destruct (edges_spec largest) as [Hneg Hpos].
  destruct (Z.le_gt_cases largest 0) as [Hl|Hl];
    [rewrite (Hneg Hl) in He; discriminate|].
  destruct (Hpos Hl) as (E & _ & _ & Hs). cbv zeta in E, Hs.
  match type of Hs with strictly_increasing ?b = true =>
    assert (Hb : bins a = b) by congruence end.
  rewrite Hb. split; [exact Hs|].
  intros e [<-|[<-|He']]; [left; reflexivity|right; left; reflexivity|].
  right. right. apply in_map_iff in He' as (k & <- & Hk).
  apply in_map. apply range_In in Hk. apply range_In. lia.
Qed.

(** A statistic that is equal to the edge [i] gets the index [i - 1] from
    the sorted search of the script. *)
Lemma statistic_on_edge (edges : list Z) (i : nat) :
  strictly_increasing edges = true ->
  (forall e, In e edges ->
     In e (0 :: 1 :: map (fun k => 2 ^ k) (range 5 32))) ->
  (i < List.length edges)%nat ->
  Z.of_nat (Bisect.bisect_left int_lt_float edges
              (float_of_int (nth i edges 0))) - 1
  = Z.of_nat i - 1.
Proof.
  intros Hs Hin Hi. f_equal. f_equal. apply bisect_left_at_item.
  - apply strictly_increasing_nth. exact Hs.
  - exact Hi.
  - apply edge_as_float. apply Hin. apply nth_In. exact Hi.
Qed.

Lemma median_on_edge (lines : list string) (a : analysis) (i : nat) :
  analyse lines = Ok a ->
  (i < List.length (bins a))%nat ->
  median a = float_of_int (nth i (bins a) 0) ->
  bmedian a = Z.of_nat i - 1.
Proof.
  intros H Hi Hm. destruct (analyse_bins _ _ H) as [Hs Hin].
  apply analyse_inv in H as (_ & _ & _ & _ & _ & _ & -> & _).
  rewrite Hm. apply statistic_on_edge; assumption.
Qed.

Lemma mean_on_edge (lines : list string) (a : analysis) (i : nat) :
  analyse lines = Ok a ->
  (i < List.length (bins a))%nat ->
  mean a = float_of_int (nth i (bins a) 0) ->
  bmean a = Z.of_nat i - 1.
Proof.
  intros H Hi Hm. destruct (analyse_bins _ _ H) as [Hs Hin].
  apply analyse_inv in H as (_ & _ & _ & _ & _ & _ & _ & -> & _).
  rewrite Hm. apply statistic_on_edge; assumption.
Qed.

(** A sample that is equal to the edge [i] is counted in the bin [i],
    the one that starts at the edge. *)
Lemma sample_on_edge (s : Z) (i : nat) :
  forall edges : list Z,
    strictly_increasing edges = true ->
    (i + 1 < List.length edges)%nat ->
    nth i edges 0 = s ->
    nth i (bin_counts [s] edges) 0 = 1.
Proof.
  induction i as [|i IH]; intros edges Hs Hi Hn;
    destruct edges as [|lo [|hi rest]]; cbn [List.length] in Hi; try lia;
    apply strictly_increasing_cons in Hs as [Hlt Hs].
  - cbn in Hn. subst lo.
    destruct rest; cbn [bin_counts nth]; rewrite count_cons;
      destruct (Z.leb_spec s s); try lia;
      [destruct (Z.leb_spec s hi)|destruct (Z.ltb_spec s hi)];
      try lia; reflexivity.
  - destruct rest as [|r rest]; [cbn [List.length] in Hi; lia|].
    change (nth (S i) (lo :: hi :: r :: rest) 0)
      with (nth i (hi :: r :: rest) 0) in Hn.
    change (bin_counts [s] (lo :: hi :: r :: rest))
      with (count (fun x => (lo <=? x) && (x <? hi)) [s]
            :: bin_counts [s] (hi :: r :: rest)).
    cbn [nth]. apply IH; [exact Hs|cbn [List.length] in *; lia|exact Hn].
Qed.

(** A sample above the last edge, or below the first, is in no bin. *)
Lemma sample_outside_edges (lines : list string) (a : analysis) (s : Z) :
  analyse lines = Ok a ->
  s < 0 \/ last (bins a) 0 < s ->
  total_count (bin_counts [s] (bins a)) = 0.
Proof.
  intros H Hs. destruct (analyse_bins _ _ H) as [Hinc _].
  destruct (analyse_counts _ _ H) as (_ & _ & Hhd & _).
  apply strictly_increasing_monotonic in Hinc.
  apply analyse_inv in H as (largest & _ & _ & He & _).
  destruct (bins a) as [|lo [|hi rest]] eqn:Hb.
  - reflexivity.
  - reflexivity.
  - rewrite (bin_counts_total _ _ _ _ Hinc). unfold within_edges.
    rewrite count_cons. cbn [hd] in *. subst lo.
    destruct (Z.leb_spec 0 s), (Z.leb_spec s (last (0 :: hi :: rest) 0));
      cbn [andb]; try reflexivity.
    exfalso. lia.
Qed.

(* ===================================================================== *)
(** ** Where the script departs from its description *)
(* ===================================================================== *)

(** C1, at an input where it fails: the single line "10 a".  The only
    bin is the one from 0 to 1, the sample 10 is in no bin, and the counts
    add up to 0 while one sample was read. *)
Theorem counts_miss_sample_above_last_edge :
  exists a : analysis,
    analyse ["10 a"] = Ok a
    /\ data a = [10]
    /\ files a = 1
    /\ bins a = [0; 1]
    /\ hist a = [0]
    /\ total_count (hist a) = 0
    /\ total_count (hist a) <> files a.
Proof.
  eexists. split; [vm_compute; reflexivity|].
  repeat split; try (vm_compute; reflexivity).
  vm_compute. discriminate.
Qed.

(** C2, at an input where it fails: the single line "3000000000 x".
    The last edge is 2^31 and the size is above it, yet the last count,
    like every other, is 0; the last bar is nevertheless labelled "1G~". *)
Theorem size_above_2G_in_no_bin :
  exists a : analysis,
    analyse ["3000000000 x"] = Ok a
    /\ data a = [3000000000]
    /\ last (bins a) 0 = 2 ^ 31
    /\ last (bins a) 0 <= 3000000000
    /\ last (hist a) 1 = 0
    /\ total_count (hist a) = 0
    /\ last (xticklabels (render a)) "" = "1G~".
Proof.
  eexists. split; [vm_compute; reflexivity|].
  repeat split; try (vm_compute; reflexivity).
  vm_compute. discriminate.
Qed.

(** C3, at an input where it fails: the lines "32 a", "32 b", "1000 c".
    The median is 32, the edge at index 2, and the two samples 32 are
    counted in bin 2, but the index computed for the median is 1.  For
    "0 a", "0 b", "40 c" the median is 0, the edge at index 0, and the
    index is -1. *)
Theorem median_on_edge_gets_preceding_bin :
  (exists a : analysis,
      analyse ["32 a"; "32 b"; "1000 c"] = Ok a
      /\ median a = float_of_int 32
      /\ nth 2 (bins a) 0 = 32
      /\ nth 2 (hist a) 0 = 2
      /\ nth 1 (hist a) 0 = 0
      /\ bmedian a = 1)
  /\ (exists a : analysis,
        analyse ["0 a"; "0 b"; "40 c"] = Ok a
        /\ median a = float_of_int 0
        /\ nth 0 (bins a) 1 = 0
        /\ nth 0 (hist a) 0 = 2
        /\ bmedian a = -1).
Proof.
  split; (eexists; split; [vm_compute; reflexivity|]);
    repeat split; vm_compute; reflexivity.
Qed.

(** C4, at an input where it fails: the single line "0 a".  The largest
    size is 0 and the logarithm raises; for a largest size of 1 there are
    the two edges 0 and 1 only. *)
Theorem edges_fail_for_zero_sizes :
  analyse ["0 a"] = Raise ValueError_math_domain
  /\ Np.max [0] = Ok 0
  /\ edges 0 = Raise ValueError_math_domain
  /\ edges 1 = Ok (0, [0; 1]).
Proof.
  repeat split; vm_compute; reflexivity.
Qed.

(* ===================================================================== *)
(** ** Further properties of the analysis *)
(* ===================================================================== *)

Lemma int_of_str_raises (s : string) (e : exn) :
  int_of_str s = Raise e -> e = ValueError_int s.
Proof.
  unfold int_of_str.
  destruct (match lstrip s with
            | String "-" r => (true, r)
            | String "+" r => (false, r)
            | _ => (false, lstrip s)
            end) as [negative body].
  destruct (scan_digits None 0 body) as [[v rest]|]; [|congruence].
  destruct (lstrip rest); congruence.
Qed.


(** X1: whenever the analysis goes through, the counts are those of the
    bins between consecutive edges (left edge included, right edge
    excluded, but for the last bin), one count per pair of edges; they
    add up to the number of samples from the first to the last edge,
    which is at most the number of samples. *)
Theorem hist_counts_samples_per_bin (lines : list string) (a : analysis) :
  analyse lines = Ok a ->
  hist a = bin_counts (data a) (bins a)
  /\ bin_edges a = bins a
  /\ List.length (hist a) = (List.length (bins a) - 1)%nat
  /\ total_count (hist a) = within_edges (data a) (bins a)
  /\ 0 <= total_count (hist a) <= files a.
Proof.
  intros H. destruct (analyse_counts _ _ H) as (Hh & Ht & _ & Hl).
  destruct (analyse_bins _ _ H) as [Hs _].
  apply strictly_increasing_monotonic in Hs.
  apply analyse_inv in H as (_ & _ & _ & _ & _ & _ & _ & _ & Hf & _ & Hg).
  rewrite (histogram_bin_counts _ _ Hs) in Hg.
  split; [exact Hh|]. split; [congruence|]. split; [exact Hl|].
  split; [exact Ht|]. rewrite Ht, Hf. unfold within_edges.
  split; [apply count_nonneg|apply count_le_length].
Qed.

(** The same on the scenario of four sizes. *)
Lemma hist_counts_samples_per_bin_witness :
  exists a : analysis,
    analyse scenario = Ok a
    /\ total_count (hist a) = within_edges (data a) (bins a).
Proof.
  destruct (analyse scenario) as [a|e] eqn:H;
    [|vm_compute in H; discriminate H].
  exists a. split; [reflexivity|].
  apply (hist_counts_samples_per_bin scenario a H).
Defined.

(** X2: where no size is negative or above 2^31, and either one size is
    above 16 or none is above 1, every sample is in a bin: the counts add
    up to the number of samples. *)
Theorem every_sample_counted_in_range (lines : list string) (a : analysis) :
  analyse lines = Ok a ->
  (forall x, In x (data a) -> 0 <= x <= 2 ^ 31) ->
  (exists x, In x (data a) /\ 16 < x)
  \/ (forall x, In x (data a) -> x <= 1) ->
  total_count (hist a) = files a.
Proof.
  intros H Hrange [Hbig|Hsmall];
    [exact (counts_add_up_in_range _ _ H Hrange Hbig)|].
  destruct (analyse_counts _ _ H) as (_ & -> & _).
  apply analyse_inv in H
    as (largest & _ & Hm & He & _ & _ & _ & _ & -> & _).
  destruct (max_spec _ _ Hm) as [Hin _].
  destruct (edges_spec largest) as [Hneg _].
  destruct (Z.le_gt_cases largest 0) as [Hl|Hl];
    [rewrite (Hneg Hl) in He; discriminate|].
  rewrite edges_small in He by (specialize (Hsmall _ Hin); lia).
  assert (Hb : bins a = [0; 1]) by congruence.
  rewrite Hb. apply count_all. intros y Hy.
  specialize (Hrange y Hy). specialize (Hsmall y Hy). cbn.
  apply andb_true_intro. split; apply Z.leb_le; lia.
Qed.

(** The same on the scenario, whose largest size is above 16. *)
Lemma every_sample_counted_in_range_witness :
  exists a : analysis,
    analyse scenario = Ok a /\ total_count (hist a) = files a.
Proof.
  destruct (analyse scenario) as [a|e] eqn:H;
    [|vm_compute in H; discriminate H].
  exists a. split; [reflexivity|].
  apply (every_sample_counted_in_range scenario a H).
  - vm_compute in H. injection H as <-. cbn [data].
    intros x [<-|[<-|[<-|[<-|[]]]]]; vm_compute; split; discriminate.
  - left. exists 2000. vm_compute in H. injection H as <-. cbn [data].
    split; [right; right; left; reflexivity|reflexivity].
Defined.

(** X3: for a positive largest size the edges are 0, 1 and then the
    powers of two 2^5, ..., 2^k, where k is the rounded-up logarithm of
    the largest size, at most 31: they grow strictly, none is above 2^31
    and there are at most 29 of them. *)
Theorem edges_grow_from_0_1 (largest : Z) :
  0 < largest ->
  exists (k : Z) (powers : list Z),
    edges largest = Ok (k, 0 :: 1 :: powers)
    /\ k = Z.min (Z.log2_up largest) 31
    /\ strictly_increasing (0 :: 1 :: powers) = true
    /\ (forall e, In e powers <-> exists j, 5 <= j <= k /\ e = 2 ^ j)
    /\ last (0 :: 1 :: powers) 0 <= 2 ^ 31
    /\ (List.length powers <= 27)%nat.
Proof.
  intros H. destruct (edges_spec largest) as [_ E].
  destruct (E H) as (He & _ & Hl & Hs). cbv zeta in *.
  set (k := Z.min (Z.log2_up largest) 31) in *.
  exists k. eexists. split; [exact He|]. split; [reflexivity|].
  split; [exact Hs|]. split; [|split].
  - intros e. rewrite in_map_iff. split.
    + intros (j & <- & Hj). apply range_In in Hj. exists j. split; [lia|reflexivity].
    + intros (j & Hj & ->). exists j. split; [reflexivity|].
      apply range_In. lia.
  - rewrite Hl. destruct (5 <=? k); [|lia].
    apply Z.pow_le_mono_r; lia.
  - rewrite length_map. unfold range. rewrite length_map, length_seq. lia.
Qed.

(** The same for a largest size of 3000000. *)
Lemma edges_grow_from_0_1_witness :
  exists (k : Z) (powers : list Z),
    edges 3000000 = Ok (k, 0 :: 1 :: powers) /\ k = 22.
Proof.
  destruct (edges_grow_from_0_1 3000000) as (k & powers & He & Hk & _);
    [reflexivity|].
  exists k, powers. split; [exact He|]. rewrite Hk. reflexivity.
Defined.



(* ===================================================================== *)
(** ** Further properties of the sorted search *)
(* ===================================================================== *)

Lemma filter_prefix_length (p : Z -> bool) (a : list Z) :
  forall r : nat,
    (r <= List.length a)%nat ->
    (forall i, (i < r)%nat -> p (nth i a 0) = true) ->
    (forall i, (r <= i < List.length a)%nat -> p (nth i a 0) = false) ->
    List.length (filter p a) = r.
Proof.
  induction a as [|y a IH]; intros r Hr Ht Hf; cbn [List.length] in *.
  - cbn. lia.
  - cbn [filter]. destruct r as [|r].
    + pose proof (Hf 0%nat ltac:(lia)) as H0. cbn [nth] in H0. rewrite H0.
      apply (IH 0%nat); [lia|intros i Hi; lia|].
      intros i Hi. apply (Hf (S i)). lia.
    + pose proof (Ht 0%nat ltac:(lia)) as H0. cbn [nth] in H0. rewrite H0.
      cbn [List.length]. f_equal.
      apply IH; [lia| |].
      * intros i Hi. apply (Ht (S i)). lia.
      * intros i Hi. apply (Hf (S i)). lia.
Qed.

(** X5: on a list that is in order as far as [x] can tell, [bisect_left]
    returns the number of items less than [x]: the items before that
    position are less than [x] and the items from it on are not. *)
Theorem bisect_left_counts_items_less {A : Type} (less : Z -> A -> bool)
    (a : list Z) (x : A) :
  (forall i j : nat,
      (i <= j < List.length a)%nat ->
      less (nth j a 0) x = true -> less (nth i a 0) x = true) ->
  let r := Bisect.bisect_left less a x in
  (r <= List.length a)%nat
  /\ (forall i, (i < r)%nat -> less (nth i a 0) x = true)
  /\ (forall i, (r <= i < List.length a)%nat -> less (nth i a 0) x = false)
  /\ r = List.length (filter (fun b => less b x) a).
Proof.
  intros Hd. destruct (bisect_left_spec less a x Hd) as (Hr & Ht & Hf).
  cbv zeta. split; [exact Hr|]. split; [exact Ht|]. split; [exact Hf|].
  symmetry. apply filter_prefix_length; assumption.
Qed.

(** The position of 40 among the edges 0, 1, 32, 64. *)
Lemma bisect_left_counts_items_less_witness :
  Bisect.bisect_left Z.ltb [0; 1; 32; 64] 40
  = List.length (filter (fun b => b <? 40) [0; 1; 32; 64]).
Proof.
  apply (bisect_left_counts_items_less Z.ltb [0; 1; 32; 64] 40).
  intros i j Hij. cbn [List.length] in Hij.
  assert (Hj : (j = 0 \/ j = 1 \/ j = 2 \/ j = 3)%nat) by lia.
  assert (Hi : (i = 0 \/ i = 1 \/ i = 2 \/ i = 3)%nat) by lia.
  destruct Hj as [-> | [-> | [-> | ->]]], Hi as [-> | [-> | [-> | ->]]];
    vm_compute; try reflexivity; try discriminate; lia.
Defined.

(** An integer below one that is less than a float is less than it
    too. *)
Lemma int_lt_float_downward (b b' : Z) (x : float) :
  b <= b' -> int_lt_float b' x = true -> int_lt_float b x = true.
Proof.
  intros Hb. unfold int_lt_float, compare_float_int.
  destruct x as [s|s| |s m e]; try discriminate.
  - destruct (Z.compare_spec 0 b'), (Z.compare_spec 0 b);
      try discriminate; try reflexivity; lia.
  - destruct s; [discriminate|reflexivity].
  - destruct e as [|p|p];
      match goal with
      | |- context [?u ?= b' * ?w] =>
          assert (0 < w) by (apply Z.pow_pos_nonneg; lia);
          destruct (Z.compare_spec u (b' * w)), (Z.compare_spec u (b * w))
      | |- context [?u ?= b'] =>
          destruct (Z.compare_spec u b'), (Z.compare_spec u b)
      end; try discriminate; try reflexivity; nia.
Qed.

(** X6: the positions of the two markers.  One more than the index
    computed for the mean (for the median) is the number of edges below
    the mean (the median): the edges up to the index are below it, the
    later ones are not.  The index is at least -1 and at most the number
    of bars. *)
Theorem marker_index_counts_edges_below (lines : list string) (a : analysis) :
  analyse lines = Ok a ->
  (-1 <= bmean a <= Z.of_nat (List.length (hist a))
   /\ (forall i : nat, Z.of_nat i <= bmean a ->
         int_lt_float (nth i (bins a) 0) (mean a) = true)
   /\ (forall i : nat, bmean a < Z.of_nat i ->
         (i < List.length (bins a))%nat ->
         int_lt_float (nth i (bins a) 0) (mean a) = false))
  /\ (-1 <= bmedian a <= Z.of_nat (List.length (hist a))
      /\ (forall i : nat, Z.of_nat i <= bmedian a ->
            int_lt_float (nth i (bins a) 0) (median a) = true)
      /\ (forall i : nat, bmedian a < Z.of_nat i ->
            (i < List.length (bins a))%nat ->
            int_lt_float (nth i (bins a) 0) (median a) = false)).
Proof.
  intros H. destruct (analyse_bins _ _ H) as [Hs _].
  destruct (analyse_counts _ _ H) as (_ & _ & _ & Hlen).
  apply analyse_inv in H as (_ & _ & _ & _ & _ & _ & Hmed & Hmean & _).
  assert (Hd : forall x : float, forall i j : nat,
             (i <= j < List.length (bins a))%nat ->
             int_lt_float (nth j (bins a) 0) x = true ->
             int_lt_float (nth i (bins a) 0) x = true).
  { intros x i j Hij. apply int_lt_float_downward.
    destruct (Nat.eq_dec i j) as [->|Hne]; [lia|].
    pose proof (strictly_increasing_nth _ Hs i j ltac:(lia)). lia. }
  split.
  - destruct (bisect_left_spec int_lt_float (bins a) (mean a) (Hd _))
      as (Hr & Ht & Hf).
    rewrite Hmean, Hlen. split; [lia|]. split.
    + intros i Hi. apply Ht. lia.
    + intros i Hi Hb. apply Hf. lia.
  - destruct (bisect_left_spec int_lt_float (bins a) (median a) (Hd _))
      as (Hr & Ht & Hf).
    rewrite Hmed, Hlen. split; [lia|]. split.
    + intros i Hi. apply Ht. lia.
    + intros i Hi Hb. apply Hf. lia.
Qed.

(** The same on the scenario: the mean 750502.5 is above the edge 2^19
    at index 16 and not above the next edge. *)
Lemma marker_index_counts_edges_below_witness :
  exists a : analysis,
    analyse scenario = Ok a
    /\ -1 <= bmean a <= Z.of_nat (List.length (hist a)).
Proof.
  destruct (analyse scenario) as [a|e] eqn:H;
    [|vm_compute in H; discriminate H].
  exists a. split; [reflexivity|].
  apply (marker_index_counts_edges_below scenario a H).
Defined.

(* ===================================================================== *)
(** ** Further properties of the formatter *)
(* ===================================================================== *)

Lemma pow_1024_succ (k : nat) :
  1024 ^ (Z.of_nat k + 1) = 1024 ^ Z.of_nat k * 1024.
Proof. rewrite Z.pow_add_r by lia. reflexivity. Qed.

Lemma pow_1024_pos (k : nat) : 0 < 1024 ^ Z.of_nat k.
Proof. apply Z.pow_pos_nonneg; lia. Qed.

(** X7: the mark follows the magnitude.  An integer from 1024^k up to,
    but not including, 1024^(k+1) is printed as its quotient by 1024^k,
    a number from 1 to 1023, followed by the k-th mark; an integer below
    1024, also a negative one, is printed as it is; from 1024^5 on the
    mark stays P. *)
Theorem numfmt_int_by_magnitude (n : Z) (k : nat) :
  (k <= 5)%nat ->
  k = 0%nat \/ 1024 ^ Z.of_nat k <= n ->
  k = 5%nat \/ n < 1024 ^ (Z.of_nat k + 1) ->
  numfmt (PyInt n)
  = (str (n / 1024 ^ Z.of_nat k)
     ++ slice marks (Z.of_nat k - 1) (Z.of_nat k))%string
  /\ (k <> 0%nat -> 1 <= n / 1024 ^ Z.of_nat k)
  /\ (k <> 5%nat -> n / 1024 ^ Z.of_nat k < 1024).
Proof.
  intros Hk Hlo Hhi.
  destruct (numfmt_int_loop n) as (k' & Hloop & Hall & Hk' & Hend).
  assert (k' = k) as ->.
  { destruct (Nat.lt_trichotomy k' k) as [Hlt|[Heq|Hgt]]; [|exact Heq|];
      exfalso.
    - destruct Hend as [Hend|Hend]; [|lia].
      destruct Hlo as [Hlo|Hlo]; [lia|].
      assert (1024 <= n / 1024 ^ Z.of_nat k'); [|lia].
      apply Z.div_le_lower_bound; [apply pow_1024_pos|].
      rewrite <- pow_1024_succ.
      etransitivity; [|exact Hlo]. apply Z.pow_le_mono_r; lia.
    - destruct Hhi as [Hhi|Hhi]; [lia|].
      specialize (Hall k Hgt).
      assert (n / 1024 ^ Z.of_nat k < 1024); [|lia].
      apply Z.div_lt_upper_bound; [apply pow_1024_pos|].
      rewrite <- pow_1024_succ. exact Hhi. }
  split; [unfold numfmt; rewrite Hloop; reflexivity|]. split.
  - intros Hne. destruct Hlo as [Hlo|Hlo]; [lia|].
    apply Z.div_le_lower_bound; [apply pow_1024_pos|lia].
  - intros Hne. destruct Hhi as [Hhi|Hhi]; [lia|].
    apply Z.div_lt_upper_bound; [apply pow_1024_pos|].
    rewrite <- pow_1024_succ. exact Hhi.
Qed.

(** 5000000 is between 1024^2 and 1024^3. *)
Lemma numfmt_int_by_magnitude_witness :
  numfmt (PyInt 5000000) = "4M".
Proof.
  apply (numfmt_int_by_magnitude 5000000 2).
  - lia.
  - right. vm_compute. discriminate.
  - right. vm_compute. reflexivity.
Defined.

(** X8: the labels of the edges are exact.  A power of two 2^e below
    2^60 is printed as 2^(e mod 10) followed by the mark number e / 10:
    32 to 512, 1K to 512K, 1M to 512M, 1G, 2G and so on; nothing is lost
    to the truncating division. *)
Theorem numfmt_power_of_two (e : nat) :
  (e < 60)%nat ->
  numfmt (PyInt (2 ^ Z.of_nat e))
  = (str (2 ^ Z.of_nat (e mod 10))
     ++ slice marks (Z.of_nat (e / 10) - 1) (Z.of_nat (e / 10)))%string.
Proof.
  intros He.
  do 60 (destruct e as [|e]; [vm_compute; reflexivity|]).
  lia.
Qed.

(** The edge 2^31. *)
Lemma numfmt_power_of_two_witness : numfmt (PyInt (2 ^ 31)) = "2G".
Proof.
  apply (numfmt_power_of_two 31). lia.
Defined.

(* ===================================================================== *)
(** ** Further properties of the loader *)
(* ===================================================================== *)

Lemma decimal_fold_acc (d : Decimal.uint) :
  forall p : positive,
    fold_left (fun acc c => 10 * acc + (Z.of_nat (nat_of_ascii c) - 48))
              (list_ascii_of_string (NilEmpty.string_of_uint d)) (Zpos p)
    = Zpos (Pos.of_uint_acc d p).
Proof.
  induction d; intros p;
    cbn [NilEmpty.string_of_uint list_ascii_of_string fold_left
         Pos.of_uint_acc]; [reflexivity|..];
    rewrite <- IHd; f_equal.
  all: try rewrite Pos2Z.inj_add; rewrite Pos2Z.inj_mul.
  all: match goal with
       | |- context [nat_of_ascii ?c] =>
           let v := eval vm_compute in (Z.of_nat (nat_of_ascii c)) in
           change (Z.of_nat (nat_of_ascii c)) with v
       end.
  all: lia.
Qed.

Lemma decimal_fold (d : Decimal.uint) :
  fold_left (fun acc c => 10 * acc + (Z.of_nat (nat_of_ascii c) - 48))
            (list_ascii_of_string (NilEmpty.string_of_uint d)) 0
  = Z.of_uint d.
Proof.
  unfold Z.of_uint.
  induction d;
    cbn [NilEmpty.string_of_uint list_ascii_of_string fold_left Pos.of_uint];
    [reflexivity|exact IHd|..];
    match goal with
    | |- fold_left _ _ ?acc = Z.of_N (N.pos (Pos.of_uint_acc _ ?p)) =>
        change acc with (Zpos p)
    end; apply decimal_fold_acc.
Qed.

Lemma string_of_uint_all_digits (d : Decimal.uint) :
  all_digits (NilEmpty.string_of_uint d) = true.
Proof.
  unfold all_digits. induction d; cbn; try reflexivity; exact IHd.
Qed.

(** What [str] prints for a number that is not negative: digits, at least
    one, that stand for the number. *)
Lemma printed_digits (d : Decimal.uint) :
  NilZero.string_of_uint d <> ""
  /\ all_digits (NilZero.string_of_uint d) = true
  /\ decimal_value (NilZero.string_of_uint d) = Z.of_uint d.
Proof.
  unfold decimal_value.
  destruct d; cbn [NilZero.string_of_uint];
    try (split; [discriminate|split; [reflexivity|reflexivity]]);
    (split; [discriminate|]);
    (split; [apply string_of_uint_all_digits|apply decimal_fold]).
Qed.

Lemma int_of_str_str (n : Z) : int_of_str (str n) = Ok n.
Proof.
  unfold str. pose proof (DecimalZ.of_to n) as Hn.
  destruct (Z.to_int n) as [d|d]; cbn [Z.of_int NilZero.string_of_int] in *;
    destruct (printed_digits d) as (Hne & Hd & Hv);
    destruct (int_of_str_digits _ Hne Hd) as [Hpos Hneg].
  - rewrite Hpos, Hv, Hn. reflexivity.
  - change (String "-" (NilZero.string_of_uint d))
      with ("-" ++ NilZero.string_of_uint d)%string.
    rewrite Hneg, Hv, Hn. reflexivity.
Qed.

Lemma before_space_str (n : Z) (rest : string) :
  before_space (str n ++ String " " rest) = str n.
Proof.
  unfold str.
  destruct (Z.to_int n) as [d|d]; cbn [NilZero.string_of_int];
    destruct (printed_digits d) as (_ & Hd & _).
  - apply before_space_app_space, all_digits_before_space, Hd.
  - cbn [append before_space]. change (Ascii.eqb "-" " ") with false.
    cbv iota. f_equal.
    apply before_space_app_space, all_digits_before_space, Hd.
Qed.

(** X9: a size that is printed is read back.  For every integer [n] and
    every remainder, the line made of the decimal text of [n], a space
    and the remainder is loaded as [n]. *)
Theorem load_reads_back_printed_size (n : Z) (rest : string) :
  int_of_str (str n) = Ok n
  /\ load [(str n ++ " " ++ rest)%string] = Ok [n].
Proof.
  split; [apply int_of_str_str|].
  unfold load. cbn [comprehension]. rewrite split_head.
  change (str n ++ " " ++ rest)%string with (str n ++ String " " rest)%string.
  rewrite before_space_str, int_of_str_str. reflexivity.
Qed.

Lemma lstrip_app (w s : string) :
  lstrip w = "" -> lstrip (w ++ s) = lstrip s.
Proof.
  induction w as [|c w IH]; cbn [lstrip append]; [reflexivity|].
  destruct (is_space c); [exact IH|discriminate].
Qed.

Lemma is_space_facts (c : ascii) :
  is_space c = true ->
  digit_value c = None /\ Ascii.eqb c underscore = false.
Proof.
  destruct c as [[] [] [] [] [] [] [] []]; vm_compute; intros H;
    try discriminate H; split; reflexivity.
Qed.

(** A run of digits is scanned up to the whitespace after it. *)
Lemma scan_digits_then_space (tok : string) (c : ascii) (w : string) :
  tok <> "" -> all_digits tok = true -> is_space c = true ->
  forall (prev : option ascii) (acc : Z),
    scan_digits prev acc (tok ++ String c w)
    = Some (fold_left
              (fun acc c => 10 * acc + (Z.of_nat (nat_of_ascii c) - 48))
              (list_ascii_of_string tok) acc, String c w).
Proof.
  intros Hne Hd Hc. destruct (is_space_facts c Hc) as [Hv Hu].
  unfold all_digits in Hd.
  induction tok as [|t tok IH]; [congruence|].
  cbn [list_ascii_of_string forallb] in Hd.
  apply andb_prop in Hd as [Ht Hd].
  destruct (is_digit_facts t Ht) as (Htv & Htu & _).
  intros prev acc. cbn [append scan_digits list_ascii_of_string fold_left].
  rewrite Htu, Htv. destruct tok as [|t' tok].
  - cbn [append scan_digits list_ascii_of_string fold_left].
    rewrite Hu, Hv. cbn [digits_end]. rewrite Htu. reflexivity.
  - apply IH; [discriminate|exact Hd].
Qed.

(** X10: [int()] ignores whitespace around the digits, so a line that
    holds a size only, with its newline, is loaded as that size. *)
Theorem size_with_whitespace_around (before tok after : string) :
  lstrip before = "" -> lstrip after = "" ->
  tok <> "" -> all_digits tok = true ->
  int_of_str (before ++ tok ++ after) = Ok (decimal_value tok)
  /\ load [(tok ++ String newline "")%string] = Ok [decimal_value tok].
Proof.
  intros Hb Ha Hne Hd.
  assert (Hint : forall b w, lstrip b = "" -> lstrip w = "" ->
            int_of_str (b ++ tok ++ w) = Ok (decimal_value tok)).
  { intros b w Hb' Hw. unfold int_of_str. rewrite (lstrip_app _ _ Hb').
    destruct tok as [|t tok]; [congruence|].
    assert (Ht : is_digit t = true).
    { unfold all_digits in Hd. cbn in Hd. apply andb_prop in Hd. tauto. }
    destruct (is_digit_facts t Ht) as (_ & _ & _ & Hs & Hm & Hp).
    cbn [append lstrip]. rewrite Hs.
    replace (match String t (tok ++ w) with
             | String "-" r => (true, r)
             | String "+" r => (false, r)
             | _ => (false, String t (tok ++ w))
             end) with (false, String t (tok ++ w))
      by (clear - Hm Hp;
          destruct t as [[] [] [] [] [] [] [] []]; try reflexivity;
          congruence).
    cbv beta iota zeta.
    change (String t (tok ++ w)) with (String t tok ++ w)%string.
    destruct w as [|c w].
    - replace (String t tok ++ "")%string with (String t tok)
        by (clear; induction (String t tok) as [|x s IH];
            [reflexivity|cbn; rewrite <- IH; reflexivity]).
      rewrite (scan_digits_all_digits _ Hd). reflexivity.
    - assert (Hc : is_space c = true).
      { cbn [lstrip] in Hw. destruct (is_space c);
          [reflexivity|discriminate]. }
      rewrite (scan_digits_then_space _ c w Hne Hd Hc). rewrite Hw.
      reflexivity. }
  split; [apply Hint; assumption|].
  unfold load. cbn [comprehension]. rewrite split_head.
  assert (Hbs : before_space (tok ++ String newline "")
                = (tok ++ String newline "")%string).
  { pose proof (all_digits_before_space tok Hd) as Ht. clear - Ht.
    induction tok as [|t tok IH]; [reflexivity|].
    cbn [append before_space] in *.
    destruct (Ascii.eqb t " "); [discriminate|].
    injection Ht as Ht. rewrite (IH Ht). reflexivity. }
  rewrite Hbs.
  pose proof (Hint "" (String newline "") eq_refl eq_refl) as H.
  cbn [append] in H. rewrite H. reflexivity.
Qed.

(** A size indented by a tab, with a carriage return and a newline after
    it. *)
Lemma size_with_whitespace_around_witness :
  int_of_str (tab ++ "4096"
              ++ String carriage_return (String newline ""))%string
  = Ok 4096.
Proof.
  apply (size_with_whitespace_around tab "4096"
           (String carriage_return (String newline "")));
    [reflexivity|reflexivity|discriminate|reflexivity].
Defined.

Lemma comprehension_app {A B : Type} (f : A -> result B) (l l' : list A)
    (ys : list B) :
  comprehension f l = Ok ys ->
  comprehension f (l ++ l')%list
  = bind (comprehension f l') (fun ys' => Ok (ys ++ ys')%list).
Proof.
  revert ys. induction l as [|x l IH]; intros ys; cbn [comprehension app].
  - intros [= <-]. destruct (comprehension f l'); reflexivity.
  - destruct (f x) as [y|e]; cbn [bind]; [|discriminate].
    destruct (comprehension f l) as [ys0|e] eqn:Hl; cbn [bind];
      [|discriminate].
    intros [= <-]. rewrite (IH ys0 eq_refl).
    destruct (comprehension f l'); reflexivity.
Qed.

(** X11: the loader keeps the order of the lines and stops at the first
    line it cannot read.  After lines that load, more lines that load add
    their sizes at the end; a line whose text before the first space is
    rejected by [int()] ends the loading with the exception for that
    text, whatever follows. *)
Theorem load_stops_at_first_bad_line (good : list string) (sizes : list Z) :
  load good = Ok sizes ->
  List.length sizes = List.length good
  /\ (forall (more : list string) (sizes' : list Z),
        load more = Ok sizes' ->
        load (good ++ more)%list = Ok (sizes ++ sizes')%list)
  /\ (forall (bad : string) (rest : list string) (e : exn),
        int_of_str (before_space bad) = Raise e ->
        load (good ++ bad :: rest)%list
        = Raise (ValueError_int (before_space bad))).
Proof.
  intros H. split; [|split].
  - apply comprehension_ok in H. symmetry. exact (Forall2_length H).
  - intros more sizes' Hm. unfold load in *.
    rewrite (comprehension_app _ _ _ _ H), Hm. reflexivity.
  - intros bad rest e He. unfold load in *.
    rewrite (comprehension_app _ _ _ _ H). cbn [comprehension].
    rewrite split_head, He. cbn [bind].
    rewrite (int_of_str_raises _ _ He). reflexivity.
Qed.

(** Two good lines, then a line without a size. *)
Lemma load_stops_at_first_bad_line_witness :
  load ["12 a"; "7 b"; "total 19"; "3 c"] = Raise (ValueError_int "total").
Proof.
  destruct (load_stops_at_first_bad_line ["12 a"; "7 b"] [12; 7] eq_refl)
    as (_ & _ & H).
  apply (H "total 19" ["3 c"] (ValueError_int "total")). reflexivity.
Defined.

(* ===================================================================== *)
(** ** Further properties of the histogram *)
(* ===================================================================== *)

Lemma bin_counts_nonneg (a edges : list Z) :
  forall x, In x (bin_counts a edges) -> 0 <= x.
Proof.
  induction edges as [|lo edges IH]; [intros x []|].
  destruct edges as [|hi [|r rest]]; [intros x []| |].
  - intros x [<-|[]]. apply count_nonneg.
  - cbn [bin_counts] in *. intros x [<-|Hx]; [apply count_nonneg|].
    apply IH. exact Hx.
Qed.

Lemma nth_le_total (l : list Z) :
  (forall x, In x l -> 0 <= x) ->
  forall i, 0 <= nth i l 0 <= total_count l.
Proof.
  induction l as [|x l IH]; intros Hl i.
  - destruct i; cbn; lia.
  - pose proof (Hl x (or_introl eq_refl)).
    assert (Hl' : forall y, In y l -> 0 <= y)
      by (intros y Hy; apply Hl; right; exact Hy).
    change (total_count (x :: l)) with (x + total_count l).
    destruct i as [|i]; cbn [nth].
    + specialize (IH Hl' 0%nat). lia.
    + specialize (IH Hl' i). lia.
Qed.

Lemma two_nth_le_total (l : list Z) :
  (forall x, In x l -> 0 <= x) ->
  forall i j, i <> j -> nth i l 0 + nth j l 0 <= total_count l.
Proof.
  induction l as [|x l IH]; intros Hl i j Hij.
  - destruct i, j; cbn; lia.
  - pose proof (Hl x (or_introl eq_refl)).
    assert (Hl' : forall y, In y l -> 0 <= y)
      by (intros y Hy; apply Hl; right; exact Hy).
    change (total_count (x :: l)) with (x + total_count l).
    destruct i as [|i], j as [|j]; cbn [nth]; try congruence.
    + pose proof (nth_le_total l Hl' j). lia.
    + pose proof (nth_le_total l Hl' i). lia.
    + specialize (IH Hl' i j ltac:(congruence)). lia.
Qed.

Lemma sample_in_bin (s : Z) (i : nat) :
  forall edges : list Z,
    strictly_increasing edges = true ->
    (i + 1 < List.length edges)%nat ->
    nth i edges 0 <= s ->
    s < nth (i + 1) edges 0
    \/ ((i + 2)%nat = List.length edges /\ s = nth (i + 1) edges 0) ->
    nth i (bin_counts [s] edges) 0 = 1.
Proof.
  induction i as [|i IH]; intros edges Hs Hi Hlo Hhi;
    destruct edges as [|lo [|hi rest]]; cbn [List.length] in Hi; try lia;
    apply strictly_increasing_cons in Hs as [Hlt Hs].
  - cbn [nth Nat.add] in Hlo, Hhi.
    destruct rest as [|r rest]; cbn [bin_counts nth]; rewrite count_cons.
    + destruct (Z.leb_spec lo s), (Z.leb_spec s hi); cbn [andb];
        try reflexivity; exfalso; lia.
    + destruct Hhi as [Hhi|[Hlen _]]; [|cbn [List.length] in Hlen; lia].
      destruct (Z.leb_spec lo s), (Z.ltb_spec s hi); cbn [andb];
        try reflexivity; exfalso; lia.
  - destruct rest as [|r rest]; [cbn [List.length] in Hi; lia|].
    change (nth (S i) (lo :: hi :: r :: rest) 0)
      with (nth i (hi :: r :: rest) 0) in Hlo.
    change (nth (S i + 1) (lo :: hi :: r :: rest) 0)
      with (nth (i + 1) (hi :: r :: rest) 0) in Hhi.
    change (bin_counts [s] (lo :: hi :: r :: rest))
      with (count (fun x => (lo <=? x) && (x <? hi)) [s]
            :: bin_counts [s] (hi :: r :: rest)).
    cbn [nth]. apply IH; [exact Hs|cbn [List.length] in *; lia|exact Hlo|].
    destruct Hhi as [Hhi|[Hlen Hhi]]; [left; exact Hhi|right].
    split; [cbn [List.length] in *; lia|exact Hhi].
Qed.

Lemma nth_le_last (l : list Z) :
  Np.monotonic l = true ->
  forall i, (i < List.length l)%nat -> nth 0 l 0 <= nth i l 0 <= last l 0.
Proof.
  induction l as [|x l IH]; intros Hm i Hi; [cbn in Hi; lia|].
  destruct l as [|y l]; [destruct i; cbn in *; lia|].
  pose proof (monotonic_hd_le_last _ _ Hm) as Hxl.
  apply monotonic_cons in Hm as [Hxy Hm].
  change (last (x :: y :: l) 0) with (last (y :: l) 0) in *.
  destruct i as [|i]; [cbn [nth]; lia|].
  change (nth (S i) (x :: y :: l) 0) with (nth i (y :: l) 0).
  specialize (IH Hm i ltac:(cbn [List.length] in *; lia)).
  cbn [nth] in *. lia.
Qed.

(** X12: [np.histogram] puts a sample into exactly one bin.  With edges
    that grow strictly, a sample from the edge [i] up to, but not
    including, the next edge (or up to and including it, when that is the
    last edge) gives the count 1 in bin [i] and 0 in every other bin. *)
Theorem sample_counted_once_in_its_bin (edges : list Z) (i : nat) (s : Z) :
  strictly_increasing edges = true ->
  (i + 1 < List.length edges)%nat ->
  nth i edges 0 <= s ->
  s < nth (i + 1) edges 0
  \/ ((i + 2)%nat = List.length edges /\ s = nth (i + 1) edges 0) ->
  exists h : list Z,
    Np.histogram [s] edges = Ok (h, edges)
    /\ nth i h 0 = 1
    /\ total_count h = 1
    /\ (forall j, j <> i -> nth j h 0 = 0).
Proof.
  intros Hs Hi Hlo Hhi.
  pose proof (strictly_increasing_monotonic _ Hs) as Hm.
  exists (bin_counts [s] edges).
  split; [apply histogram_bin_counts; exact Hm|].
  pose proof (sample_in_bin s i edges Hs Hi Hlo Hhi) as Hn.
  assert (Ht : total_count (bin_counts [s] edges) = 1).
  { pose proof (nth_le_last _ Hm i ltac:(lia)) as Hi0.
    pose proof (nth_le_last _ Hm (i + 1)%nat Hi) as Hi1.
    destruct edges as [|lo [|hi rest]]; cbn [List.length] in Hi; try lia.
    rewrite (bin_counts_total _ _ _ _ Hm). unfold within_edges.
    rewrite count_cons. cbn [hd nth] in *.
    destruct (Z.leb_spec lo s),
      (Z.leb_spec s (last (lo :: hi :: rest) 0)); cbn [andb];
      try reflexivity; exfalso; lia. }
  split; [exact Hn|]. split; [exact Ht|].
  intros j Hj.
  pose proof (two_nth_le_total _ (bin_counts_nonneg [s] edges) i j
                ltac:(congruence)) as H2.
  pose proof (nth_le_total _ (bin_counts_nonneg [s] edges) j). lia.
Qed.

(** A size of 40 among the edges 0, 1, 32, 64. *)
Lemma sample_counted_once_in_its_bin_witness :
  exists h : list Z,
    Np.histogram [40] [0; 1; 32; 64] = Ok (h, [0; 1; 32; 64])
    /\ nth 2 h 0 = 1.
Proof.
  destruct (sample_counted_once_in_its_bin [0; 1; 32; 64] 2 40)
    as (h & Hh & Hn & _).
  - reflexivity.
  - cbn. lia.
  - cbn. lia.
  - left. cbn. lia.
  - exists h. split; [exact Hh|exact Hn].
Defined.

Lemma fold_left_add (l : list Z) (acc : Z) :
  fold_left Z.add l acc = acc + total_count l.
Proof.
  revert acc. induction l as [|x l IH]; intros acc; cbn [fold_left].
  - cbn. lia.
  - rewrite IH. change (total_count (x :: l)) with (x + total_count l). lia.
Qed.

Lemma total_count_permutation (l l' : list Z) :
  Permutation l l' -> total_count l = total_count l'.
Proof.
  induction 1 as [|x l l' _ IH|x y l|l l' l'' _ IH1 _ IH2];
    repeat change (total_count (?x :: ?l)) with (x + total_count l); lia.
Qed.



Lemma load_map (lines : list string) (d : list Z) :
  load lines = Ok d ->
  d = map (fun x => match int_of_str (before_space x) with
                    | Ok n => n
                    | Raise _ => 0
                    end) lines.
Proof.
  intros H. apply comprehension_ok in H.
  induction H as [|x n l ns Hx _ IH]; [reflexivity|].
  cbn [map]. rewrite split_head in Hx. rewrite Hx, IH. reflexivity.
Qed.

(** X14: the order of the lines does not matter for what is counted.
    Two inputs with the same lines in a different order have the same
    edges, the same counts, the same number of files and the same total
    size. *)
Theorem counts_independent_of_line_order (lines lines' : list string)
    (a a' : analysis) :
  Permutation lines lines' ->
  analyse lines = Ok a -> analyse lines' = Ok a' ->
  maxdatalog2 a = maxdatalog2 a'
  /\ bins a = bins a'
  /\ hist a = hist a'
  /\ files a = files a'
  /\ total a = total a'.
Proof.
  intros P H H'.
  destruct (analyse_counts _ _ H) as (Hh & _).
  destruct (analyse_counts _ _ H') as (Hh' & _).
  apply analyse_inv in H
    as (m & Hl & Hm & He & _ & _ & _ & _ & Hf & Ht & _).
  apply analyse_inv in H'
    as (m' & Hl' & Hm' & He' & _ & _ & _ & _ & Hf' & Ht' & _).
  assert (Pd : Permutation (data a) (data a')).
  { rewrite (load_map _ _ Hl), (load_map _ _ Hl').
    apply Permutation_map. exact P. }
  assert (m = m').
  { destruct (max_spec _ _ Hm) as [Hin Hle].
    destruct (max_spec _ _ Hm') as [Hin' Hle'].
    pose proof (Hle m' (Permutation_in _ (Permutation_sym Pd) Hin')).
    pose proof (Hle' m (Permutation_in _ Pd Hin)). lia. }
  subst m'. rewrite He in He'. injection He' as Hk Hb.
  split; [exact Hk|]. split; [exact Hb|]. split; [|split].
  - rewrite Hh, Hh', <- Hb. apply bin_counts_permutation. exact Pd.
  - rewrite Hf, Hf'. f_equal. apply Permutation_length. exact Pd.
  - rewrite Ht, Ht'. unfold Np.sum. rewrite !fold_left_add. f_equal.
    f_equal. apply total_count_permutation. exact Pd.
Qed.

(** The scenario with its lines in reverse order. *)
Lemma counts_independent_of_line_order_witness :
  exists a a' : analysis,
    analyse scenario = Ok a /\ analyse (rev scenario) = Ok a'
    /\ hist a = hist a'.
Proof.
  destruct (analyse scenario) as [a|e] eqn:H;
    [|vm_compute in H; discriminate H].
  destruct (analyse (rev scenario)) as [a'|e] eqn:H';
    [|vm_compute in H'; discriminate H'].
  exists a, a'. split; [reflexivity|]. split; [reflexivity|].
  apply (counts_independent_of_line_order scenario (rev scenario) a a'
           (Permutation_rev scenario) H H').
Defined.

(* ===================================================================== *)
(** ** Properties of the chart *)
(* ===================================================================== *)

Lemma range_length (a b : Z) : List.length (range a b) = Z.to_nat (b - a).
Proof. unfold range. rewrite length_map, length_seq. reflexivity. Qed.

Lemma range_nth (a b : Z) (i : nat) :
  (i < Z.to_nat (b - a))%nat -> nth i (range a b) 0 = a + Z.of_nat i.
Proof.
  intros H. unfold range.
  set (f := fun k : nat => a + Z.of_nat k).
  rewrite (nth_indep _ 0 (f 0%nat))
    by (rewrite length_map, length_seq; exact H).
  rewrite (map_nth f), seq_nth by exact H. reflexivity.
Qed.

Lemma range_from_0 (n : nat) : range 0 (Z.of_nat n) = map Z.of_nat (seq 0 n).
Proof.
  unfold range. rewrite Z.sub_0_r, Nat2Z.id. apply map_ext. intros i. lia.
Qed.

(** X15: the chart is labelled bar by bar.  There is at least one bar
    and one edge more than bars; the ticks are 0, 1, ... up to the last
    bar, with one label and one count text for each bar.  The label of a
    bar but the last shows the two edges of its bin, after one separator
    line for each unit of its index modulo 3; the label of the last bar
    shows its left edge only. *)
Theorem chart_labels_match_bars (lines : list string) (a : analysis) :
  analyse lines = Ok a ->
  let c := render a in
  let n := List.length (bar_heights c) in
  (1 <= n)%nat
  /\ List.length (bins a) = (n + 1)%nat
  /\ xticks c = map Z.of_nat (seq 0 n)
  /\ List.length (xticklabels c) = n
  /\ List.length (bar_texts c) = n
  /\ (forall i : nat, (i + 1 < n)%nat ->
        nth i (xticklabels c) ""
        = (repeat_str separator (i mod 3)
           ++ numfmt (PyInt (nth i (bins a) 0)) ++ "~"
           ++ numfmt (PyInt (nth (i + 1) (bins a) 0)))%string)
  /\ nth (n - 1) (xticklabels c) ""
     = (numfmt (PyInt (nth (n - 1) (bins a) 0)) ++ "~")%string.
Proof.
  intros H. cbv zeta. cbn [render bar_heights xticks xticklabels bar_texts].
  destruct (analyse_counts _ _ H) as (_ & _ & _ & Hlen).
  assert (Hb : (2 <= List.length (bins a))%nat).
  { apply analyse_inv in H as (largest & _ & _ & He & _).
    destruct (edges_spec largest) as [Hneg Hpos].
    destruct (Z.le_gt_cases largest 0) as [Hl|Hl];
      [rewrite (Hneg Hl) in He; discriminate|].
    destruct (Hpos Hl) as (E & _). cbv zeta in E.
    rewrite E in He. injection He as _ <-. cbn [List.length]. lia. }
  set (n := List.length (hist a)) in *.
  assert (Hr : List.length (range 0 (Z.of_nat n - 1)) = (n - 1)%nat)
    by (rewrite range_length; lia).
  split; [lia|]. split; [lia|]. split; [apply range_from_0|].
  unfold ticklabels. fold n.
  split; [rewrite length_app, length_map, Hr; cbn [List.length]; lia|].
  split; [apply length_map|]. split.
  - intros i Hi.
    rewrite app_nth1 by (rewrite length_map, Hr; lia).
    match goal with |- nth i (map ?f ?l) "" = _ =>
      set (label := f);
      rewrite (nth_indep (map label l) "" (label 0))
        by (rewrite length_map, Hr; lia);
      rewrite (map_nth label l 0 i)
    end.
    rewrite range_nth by lia. rewrite Z.add_0_l. subst label. cbv beta.
    replace (Z.to_nat (Z.of_nat i mod 3)) with (i mod 3)%nat
      by (change (Z.of_nat i mod 3) with (Z.of_nat i mod Z.of_nat 3);
          rewrite <- Nat2Z.inj_mod, Nat2Z.id; reflexivity).
    replace (Z.to_nat (Z.of_nat i + 1)) with (i + 1)%nat by lia.
    rewrite Nat2Z.id. reflexivity.
  - rewrite app_nth2 by (rewrite length_map, Hr; lia).
    rewrite length_map, Hr, Nat.sub_diag. cbn [nth].
    replace (Z.to_nat (Z.of_nat n - 1)) with (n - 1)%nat by lia.
    reflexivity.
Qed.

(** The same on the scenario, which has 19 bars. *)
Lemma chart_labels_match_bars_witness :
  exists a : analysis,
    analyse scenario = Ok a
    /\ List.length (xticklabels (render a))
       = List.length (bar_heights (render a)).
Proof.
  destruct (analyse scenario) as [a|e] eqn:H;
    [|vm_compute in H; discriminate H].
  exists a. split; [reflexivity|].
  apply (chart_labels_match_bars scenario a H).
Defined.

(* ===================================================================== *)
(** ** From the text of a listing to the sizes *)
(* ===================================================================== *)

Lemma plain_app (s t : string) : plain (s ++ t) = plain s && plain t.
Proof.
  unfold plain. induction s as [|c s IH]; [reflexivity|].
  cbn [append list_ascii_of_string forallb]. rewrite IH.
  apply andb_assoc.
Qed.

Lemma no_decimals_plain (s : string) : no_decimals s = true -> plain s = true.
Proof.
  unfold no_decimals, plain. induction s as [|c s IH]; [reflexivity|].
  cbn [list_ascii_of_string forallb]. intros H.
  apply andb_prop in H as [Hc H]. rewrite (IH H), andb_true_r.
  clear - Hc.
  destruct c as [[] [] [] [] [] [] [] []]; vm_compute in Hc |- *;
    try reflexivity; discriminate Hc.
Qed.

Lemma universal_newlines_line (s rest : string) :
  plain s = true ->
  universal_newlines (s ++ String newline rest)
  = (s ++ String newline (universal_newlines rest))%string.
Proof.
  unfold plain. induction s as [|c s IH]; intros H.
  - reflexivity.
  - cbn [list_ascii_of_string forallb] in H. apply andb_prop in H as [Hc H].
    apply negb_true_iff, orb_false_iff in Hc as [_ Hc].
    cbn [append universal_newlines]. rewrite Hc, (IH H). reflexivity.
Qed.

Lemma split_lines_line (s rest : string) :
  plain s = true ->
  split_lines (s ++ String newline rest)
  = (s ++ String newline "")%string :: split_lines rest.
Proof.
  unfold plain. induction s as [|c s IH]; intros H.
  - reflexivity.
  - cbn [list_ascii_of_string forallb] in H. apply andb_prop in H as [Hc H].
    apply negb_true_iff, orb_false_iff in Hc as [Hc _].
    cbn [append split_lines]. rewrite Hc, (IH H). reflexivity.
Qed.

Lemma readlines_line (s rest : string) :
  plain s = true ->
  readlines (s ++ String newline rest)
  = (s ++ String newline "")%string :: readlines rest.
Proof.
  intros H. unfold readlines.
  rewrite (universal_newlines_line _ _ H). apply split_lines_line. exact H.
Qed.

Lemma load_listing (entries : list (Z * string)) :
  (forall entry, In entry entries -> plain (snd entry) = true) ->
  readlines (listing entries)
  = map (fun entry =>
           str (fst entry) ++ " " ++ snd entry ++ String newline "")%string
        entries
  /\ load (readlines (listing entries)) = Ok (map fst entries).
Proof.
  intros Hp.
  assert (Hr : readlines (listing entries)
               = map (fun entry =>
                        str (fst entry) ++ " " ++ snd entry
                        ++ String newline "")%string entries).
  { induction entries as [|[n name] entries IH]; [reflexivity|].
    unfold listing in *. cbn [map fst snd].
    assert (Hl : plain (str n ++ " " ++ name) = true).
    { rewrite !plain_app.
      rewrite (no_decimals_plain _ (str_no_decimals n)).
      pose proof (Hp (n, name) (or_introl eq_refl)) as Hn.
      cbn [snd] in Hn. rewrite Hn. reflexivity. }
    assert (Hc : forall (x : string) (l : list string),
               concat "" (x :: l) = (x ++ concat "" l)%string).
    { intros x l. destruct l as [|y l]; cbn [concat].
      - clear. induction x as [|c x IHx]; [reflexivity|].
        cbn. rewrite <- IHx. reflexivity.
      - reflexivity. }
    rewrite Hc.
    replace ((str n ++ " " ++ name ++ String newline "")
             ++ concat "" (map (fun entry =>
                                  str (fst entry) ++ " " ++ snd entry
                                  ++ String newline "") entries))%string
      with ((str n ++ " " ++ name)
            ++ String newline
                 (concat "" (map (fun entry =>
                                    str (fst entry) ++ " " ++ snd entry
                                    ++ String newline "") entries)))%string
      by (rewrite !append_assoc; reflexivity).
    rewrite (readlines_line _ _ Hl), IH
      by (intros e He; apply Hp; right; exact He).
    rewrite !append_assoc. reflexivity. }
  split; [exact Hr|]. rewrite Hr. clear Hr Hp.
  unfold load. induction entries as [|[n name] entries IH]; [reflexivity|].
  cbn [map comprehension fst snd]. rewrite split_head.
  change (str n ++ " " ++ name ++ String newline "")%string
    with (str n ++ String " " (name ++ String newline ""))%string.
  rewrite before_space_str, int_of_str_str. cbn [bind].
  rewrite IH. reflexivity.
Qed.

(** X16: from the listing to the sizes.  For files whose names hold no
    newline and no carriage return, the text that lists each file as its
    size, a space, its name and a newline is read as one line per file,
    and the loader yields the sizes in the order of the listing; names
    may hold spaces. *)
Theorem load_of_listing (entries : list (Z * string)) :
  (forall entry, In entry entries -> plain (snd entry) = true) ->
  readlines (listing entries)
  = map (fun entry =>
           str (fst entry) ++ " " ++ snd entry ++ String newline "")%string
        entries
  /\ load (readlines (listing entries)) = Ok (map fst entries).
Proof.
  exact (load_listing entries).
Qed.

(** Three files, one with a space in its name. *)
Lemma load_of_listing_witness :
  load (readlines (listing [(0, "./empty"); (4096, "./a b.txt");
                            (12, "./c")]))
  = Ok [0; 4096; 12].
Proof.
  apply (load_of_listing [(0, "./empty"); (4096, "./a b.txt"); (12, "./c")]).
  intros entry [<-|[<-|[<-|[]]]]; reflexivity.
Defined.

(** X17: a run on a listing counts every file.  Where the input names a
    listing of files whose names hold no line ends and whose sizes are
    from 0 to 2^31, one of them above 16, the run ends with the chart,
    the heights of the bars add up to the number of files, and that
    number is the one shown. *)
Theorem run_on_listing_counts_every_file (path : string)
    (open : string -> option string) (entries : list (Z * string)) :
  open (if String.eqb path "-" then "/dev/stdin" else path)
  = Some (listing entries) ->
  (forall entry, In entry entries ->
     plain (snd entry) = true /\ 0 <= fst entry <= 2 ^ 31) ->
  (exists entry, In entry entries /\ 16 < fst entry) ->
  exists c : chart,
    main (argv_for path) open = Shown c
    /\ total_count (bar_heights c) = Z.of_nat (List.length entries)
    /\ text_files c = ("Files: " ++ str (Z.of_nat (List.length entries)))%string.
Proof.
  intros Ho Hall (big & Hbig & H16).
  destruct (load_listing entries) as [_ Hl];
    [intros e He; apply (Hall e He)|].
  assert (Hin : In (fst big) (map fst entries)) by (apply in_map; exact Hbig).
  destruct (Np.max (map fst entries)) as [m|e] eqn:Hm;
    [|destruct entries; [destruct Hbig|discriminate Hm]].
  destruct (max_spec _ _ Hm) as [_ Hle]. specialize (Hle _ Hin).
  destruct (analyse_succeeds _ _ _ Hl Hm ltac:(lia)) as (a & Ha & Hd).
  exists (render a). unfold main, argv_for.
  cbn [List.length Nat.ltb Nat.leb nth]. rewrite Ho, Ha.
  split; [reflexivity|]. cbn [render bar_heights text_files].
  assert (Hf : files a = Z.of_nat (List.length entries)).
  { pose proof Ha as Hi.
    apply analyse_inv in Hi as (_ & _ & _ & _ & _ & _ & _ & _ & -> & _).
    rewrite Hd, length_map. reflexivity. }
  rewrite <- Hf. split; [|reflexivity].
  apply (counts_add_up_in_range _ _ Ha).
  - rewrite Hd. intros x Hx. apply in_map_iff in Hx as (e & <- & He).
    apply (Hall e He).
  - exists (fst big). rewrite Hd. split; assumption.
Qed.

(** Three files listed on the standard input. *)
Lemma run_on_listing_counts_every_file_witness :
  exists c : chart,
    main (argv_for "-")
         (single_file "/dev/stdin"
            (listing [(0, "./empty"); (4096, "./a b.txt"); (12, "./c")]))
    = Shown c
    /\ total_count (bar_heights c) = 3.
Proof.
  destruct (run_on_listing_counts_every_file "-"
              (single_file "/dev/stdin"
                 (listing [(0, "./empty"); (4096, "./a b.txt"); (12, "./c")]))
              [(0, "./empty"); (4096, "./a b.txt"); (12, "./c")])
    as (c & Hc & Ht & _).
  - reflexivity.
  - intros entry [<-|[<-|[<-|[]]]]; vm_compute;
      (split; [reflexivity|split; discriminate]).
  - exists (4096, "./a b.txt"). split; [right; left; reflexivity|reflexivity].
  - exists c. split; [exact Hc|exact Ht].
Defined.

(** X18: the last edge follows the largest size.  For a largest size
    above 16 and up to 2^31 the last edge is the smallest power of two
    that is not below it; for a largest size above 2^31 the last edge is
    2^31, below the largest size. *)
Theorem last_edge_is_next_power_of_two (largest : Z) :
  16 < largest ->
  exists (k : Z) (bins : list Z),
    edges largest = Ok (k, bins)
    /\ last bins 0 = 2 ^ k
    /\ (largest <= 2 ^ 31 -> 2 ^ (k - 1) < largest <= 2 ^ k)
    /\ (2 ^ 31 < largest -> k = 31 /\ last bins 0 < largest).
Proof.
  intros H.
  destruct (edges_large largest H) as (k & powers & E & Hl & Hk & Hle & _).
  destruct (edges_spec largest) as [_ Hpos].
  destruct (Hpos ltac:(lia)) as (E' & _). cbv zeta in E'.
  assert (Hkk : k = Z.min (Z.log2_up largest) 31) by congruence.
  exists k, (0 :: 1 :: 32 :: powers).
  split; [exact E|]. split; [exact Hl|]. split.
  - intros Hmax. split; [|exact (Hle Hmax)].
    destruct (Z.log2_up_spec largest ltac:(lia)) as [Hlow _].
    assert (Z.log2_up largest <= 31).
    { apply Z.log2_up_le_pow2; lia. }
    rewrite Hkk, Z.min_l by lia.
    replace (Z.log2_up largest - 1) with (Z.pred (Z.log2_up largest)) by lia.
    exact Hlow.
  - intros Hbig.
    assert (31 < Z.log2_up largest).
    { apply Z.log2_up_lt_pow2; lia. }
    assert (Hk31 : k = 31) by lia. split; [exact Hk31|].
    rewrite Hl, Hk31. exact Hbig.
Qed.

(** A largest size of 3000000 lies between 2^21 and 2^22. *)
Lemma last_edge_is_next_power_of_two_witness :
  exists (k : Z) (bins : list Z),
    edges 3000000 = Ok (k, bins) /\ 2 ^ (k - 1) < 3000000 <= 2 ^ k.
Proof.
  destruct (last_edge_is_next_power_of_two 3000000)
    as (k & bins & He & _ & Hk & _); [reflexivity|].
  exists k, bins. split; [exact He|]. apply Hk. vm_compute. discriminate.
Defined.
